(** * nsxfint: NSX features in use per VM, from a Usage Meter report

    A shallow embedding of [nsxfint.py].  The script reads a tab separated
    report (VMH), reads the feature catalog [nsx_features.csv], decodes the
    [NsxFInt] bit mask of every VM against the catalog and writes one line
    per VM with a marker per feature and the NSX edition the VM needs.

    The script is written against pandas.  The part of pandas it relies on
    is modelled here by a small table type, [DataFrame], with the handful
    of operations the script calls; every operation says in its comment
    which pandas behaviour it stands for. *)

From Stdlib Require Import ZArith List String Ascii Bool Arith Lia Permutation Sorted.
From Stdlib Require Import DecimalString.
Import ListNotations.
Local Open Scope string_scope.
Local Open Scope list_scope.

(** ** Text helpers (the Python string operations the script uses) *)

Module Text.

Definition tab : ascii := "009"%char.
Definition newline : ascii := "010"%char.
Definition comma : ascii := ","%char.

(** [s.split(sep)] for a one character separator: never empty, one more
    field than there are separators. *)
Fixpoint split (sep : ascii) (s : string) : list string :=
  match s with
  | EmptyString => [EmptyString]
  | String c s' =>
      if Ascii.eqb c sep then EmptyString :: split sep s'
      else match split sep s' with
           | [] => [String c EmptyString]
           | f :: fs => String c f :: fs
           end
  end.

(** Number of occurrences of a character. *)
Fixpoint count (c : ascii) (s : string) : nat :=
  match s with
  | EmptyString => 0
  | String d s' => (if Ascii.eqb d c then 1 else 0) + count c s'
  end.

(** [f.readlines()]: the physical lines, each with its terminator. *)
Fixpoint readlines (s : string) : list string :=
  match s with
  | EmptyString => []
  | String c s' =>
      if Ascii.eqb c newline then String c EmptyString :: readlines s'
      else match readlines s' with
           | [] => [String c EmptyString]
           | l :: ls => String c l :: ls
           end
  end.

(** A line without its terminator. *)
Fixpoint chomp (s : string) : string :=
  match s with
  | EmptyString => EmptyString
  | String c s' => if Ascii.eqb c newline then EmptyString else String c (chomp s')
  end.

Fixpoint join (sep : string) (l : list string) : string :=
  match l with
  | [] => ""
  | [x] => x
  | x :: xs => x ++ sep ++ join sep xs
  end.

Definition of_nat (n : nat) : string := NilZero.string_of_uint (Nat.to_uint n).

(** [str(list)] for a list of integers: [[0, 1, 5]]. *)
Definition repr_list (l : list nat) : string :=
  "[" ++ join ", " (map of_nat l) ++ "]".

Definition is_digit (c : ascii) : bool :=
  let n := nat_of_ascii c in Nat.leb 48 n && Nat.leb n 57.

Fixpoint digits (acc : Z) (s : string) : option Z :=
  match s with
  | EmptyString => Some acc
  | String c s' =>
      if is_digit c
      then digits (10 * acc + Z.of_nat (nat_of_ascii c - 48)) s'
      else None
  end.

(** An integer literal: an optional sign and at least one digit. *)
Definition parse_int (s : string) : option Z :=
  match s with
  | EmptyString => None
  | String "-" EmptyString => None
  | String "+" EmptyString => None
  | String "-" s' => option_map Z.opp (digits 0 s')
  | String "+" s' => digits 0 s'
  | _ => digits 0 s
  end.

(** [str(n)] for an integer. *)
Definition of_Z (z : Z) : string := NilZero.string_of_int (Z.to_int z).

Definition lower (c : ascii) : ascii :=
  let n := nat_of_ascii c in
  if Nat.leb 65 n && Nat.leb n 90 then ascii_of_nat (n + 32) else c.

Fixpoint lowercase (s : string) : string :=
  match s with
  | EmptyString => EmptyString
  | String c s' => String (lower c) (lowercase s')
  end.

(** The white space of C's [isspace]: the blank and the characters 9
    to 13. *)
Definition is_space (c : ascii) : bool :=
  let n := nat_of_ascii c in Nat.eqb n 32 || (Nat.leb 9 n && Nat.leb n 13).

(** The ASCII white space of Python's [str.strip]: [isspace] and the
    separators 28 to 31. *)
Definition is_pyspace (c : ascii) : bool :=
  let n := nat_of_ascii c in is_space c || (Nat.leb 28 n && Nat.leb n 31).

Fixpoint lstrip (sp : ascii -> bool) (s : string) : string :=
  match s with
  | EmptyString => EmptyString
  | String c s' => if sp c then lstrip sp s' else s
  end.

(** [s] without the white space at its end: a character stays when it is
    no white space or something that stays follows it. *)
Fixpoint rstrip (sp : ascii -> bool) (s : string) : string :=
  match s with
  | EmptyString => EmptyString
  | String c s' =>
      match rstrip sp s' with
      | EmptyString => if sp c then EmptyString else String c EmptyString
      | t => String c t
      end
  end.

Definition strip (sp : ascii -> bool) (s : string) : string :=
  rstrip sp (lstrip sp s).

(** Digits with single underscores between them, as Python's [int]
    takes them. *)
Fixpoint grouped_digits (acc : Z) (s : string) : option Z :=
  match s with
  | EmptyString => None
  | String c s' =>
      if is_digit c then
        let acc' := (10 * acc + Z.of_nat (nat_of_ascii c - 48))%Z in
        match s' with
        | EmptyString => Some acc'
        | String "_" s'' => grouped_digits acc' s''
        | _ => grouped_digits acc' s'
        end
      else None
  end.

(** [int(s)] for a text [s]: white space around, an optional sign, digits
    with optional single underscores between them; [None] stands for the
    [ValueError].  Only ASCII is followed: the digits and the white space
    of other scripts, which Python takes too, are not. *)
Definition python_int (s : string) : option Z :=
  match strip is_pyspace s with
  | String "-" s' => option_map Z.opp (grouped_digits 0 s')
  | String "+" s' => grouped_digits 0 s'
  | s' => grouped_digits 0 s'
  end.

(** [PurePath.name]: what follows the last slash. *)
Fixpoint basename (s : string) : string :=
  match s with
  | EmptyString => EmptyString
  | String c s' =>
      if existsb (Ascii.eqb "/"%char) (list_ascii_of_string s')
      then basename s'
      else if Ascii.eqb c "/"%char then s' else s
  end.

(** The text from the last dot of [s] on, when [s] has a dot. *)
Fixpoint from_last_dot (s : string) : option string :=
  match s with
  | EmptyString => None
  | String c s' =>
      match from_last_dot s' with
      | Some t => Some t
      | None => if Ascii.eqb c "."%char then Some s else None
      end
  end.

(** [PurePath.suffix]: with [i = name.rfind('.')], the text [name[i:]]
    when [0 < i < len(name) - 1], the empty string otherwise. *)
Definition suffix (path : string) : string :=
  match basename path with
  | EmptyString => ""
  | String c rest =>
      match from_last_dot rest with
      | Some (String _ (String _ _) as t) => t
      | _ => ""
      end
  end.

End Text.

(** ** Values, exceptions and tables *)

(** A cell of a table.  [read_csv] gives a column one type, decided by
    all its fields, and a cell shows the type of its column: [Int] under
    a column of integer literals (int64), [Str] under a column of texts
    (object), [NaN] for a missing field.  [Float] and [Bool] stand under
    the columns whose fields all look like numbers, or all like truth
    values: a [Float] cell keeps the text of its field, which is an
    integer literal when the column is one of integers with missing
    fields (float64 in pandas).  The script itself writes [Int] cells (the
    normalised mask, the ranks) and [Str] cells (the markers, the edition
    name). *)
Inductive cell : Type :=
| NaN
| Str (s : string)
| Int (z : Z)
| Float (s : string)
| Bool (b : bool).

(** The Python exceptions the script can end in. *)
Inductive exn : Type :=
| FileNotFoundError (path : string)
| EmptyDataError
| ParserError
| KeyError (key : string)
| ValueError (msg : string)
| TypeError (msg : string)
| IndexError
| OverflowError.

(** A computation that may raise: [inl e] raises [e]. *)
Definition result (A : Type) : Type := (exn + A)%type.

Fixpoint mapR {A B : Type} (f : A -> result B) (l : list A) : result (list B) :=
  match l with
  | [] => inr []
  | x :: xs =>
      match f x with
      | inl e => inl e
      | inr y =>
          match mapR f xs with
          | inl e => inl e
          | inr ys => inr (y :: ys)
          end
      end
  end.

Definition bindR {A B : Type} (c : result A) (k : A -> result B) : result B :=
  match c with
  | inl e => inl e
  | inr x => k x
  end.

Notation "x <~ c ;; k" := (bindR c (fun x => k))
  (at level 61, c at next level, right associativity).

(** A table: column labels in order, and the rows, each with one cell per
    column.  A table with no column still has its rows (its index). *)
Record DataFrame : Type := mkDF
  { columns : list string;
    rows : list (list cell) }.

Module Pandas.

(** Default [na_values] of [read_csv]. *)
Definition na_values : list string :=
  [""; "#N/A"; "#N/A N/A"; "#NA"; "-1.#IND"; "-1.#QNAN"; "-NaN"; "-nan";
   "1.#IND"; "1.#QNAN"; "<NA>"; "N/A"; "NA"; "NULL"; "NaN"; "None"; "n/a";
   "nan"; "null"].

Definition mem (s : string) (l : list string) : bool :=
  existsb (String.eqb s) l.

Definition is_na (s : string) : bool := mem s na_values.

(** A field of a column of texts. *)
Definition read_cell (s : string) : cell :=
  if is_na s then NaN else Str s.

(** The texts on which [read_csv] below follows pandas: ASCII only (so
    that Python and pandas decode the file alike, whatever the locale),
    no quote character (pandas takes a field that starts with one as
    quoted, up to the closing quote, across separators and lines), no
    carriage return and no NUL. *)
Definition plain (text : string) : bool :=
  forallb (fun c => Nat.ltb (nat_of_ascii c) 128
                    && negb (Ascii.eqb c "034"%char || Ascii.eqb c "013"%char
                             || Ascii.eqb c "000"%char))
          (list_ascii_of_string text).

Fixpoint index_of (k : string) (l : list string) : option nat :=
  match l with
  | [] => None
  | x :: xs => if String.eqb k x then Some 0 else option_map S (index_of k xs)
  end.

(** Every position of the label [k], counted from [i]. *)
Fixpoint positions (k : string) (i : nat) (l : list string) : list nat :=
  match l with
  | [] => []
  | x :: xs =>
      if String.eqb k x then i :: positions k (S i) xs else positions k (S i) xs
  end.

Fixpoint set_nth (j : nat) (x : cell) (r : list cell) : list cell :=
  match r, j with
  | [], _ => []
  | _ :: cs, 0 => x :: cs
  | c :: cs, S j' => c :: set_nth j' x cs
  end.

Definition map2 {A B C : Type} (f : A -> B -> C) (l : list A) (l' : list B) : list C :=
  map (fun p => f (fst p) (snd p)) (combine l l').

Definition column_at (j : nat) (df : DataFrame) : list cell :=
  map (fun r => nth j r NaN) (rows df).

(** Lines of [lines] whose index, counted from [i], is not in [skip]. *)
Fixpoint drop_rows (skip : list nat) (i : nat) (lines : list string) : list string :=
  match lines with
  | [] => []
  | l :: ls =>
      if existsb (Nat.eqb i) skip then drop_rows skip (S i) ls
      else l :: drop_rows skip (S i) ls
  end.

(** A line [read_csv] passes over ([skip_blank_lines]): an empty line, or
    one of blanks and tabs only that holds no separator. *)
Definition blank (sep : ascii) (line : string) : bool :=
  forallb (fun c => (Ascii.eqb c " " || Ascii.eqb c Text.tab) && negb (Ascii.eqb c sep))
          (list_ascii_of_string line).

(** The labels of the header as the table gets them: an empty label at
    position [i] is [Unnamed: i], and the [k]-th repetition of a label
    gets the suffix [.k].  (When a label so made is itself in the header,
    pandas goes on counting, differently from version to version; that is
    not followed.) *)
Fixpoint dedup_names (seen : list string) (i : nat) (names : list string) : list string :=
  match names with
  | [] => []
  | n :: rest =>
      let n0 := if String.eqb n "" then ("Unnamed: " ++ Text.of_nat i)%string else n in
      let k := List.length (filter (String.eqb n0) seen) in
      (if Nat.eqb k 0 then n0 else (n0 ++ "." ++ Text.of_nat k)%string)
        :: dedup_names (n0 :: seen) (S i) rest
  end.

Fixpoint pad (n : nat) (r : list string) : list string :=
  match n with
  | 0 => []
  | S n' =>
      match r with
      | [] => "" :: pad n' []
      | c :: cs => c :: pad n' cs
      end
  end.

Definition int64 (z : Z) : bool :=
  (Z.leb (- 2 ^ 63) z && Z.ltb z (2 ^ 63))%Z.

(** A field the integer parser of [read_csv] takes: white space around,
    an optional sign, digits, and a value of 64 bits. *)
Definition int_literal (s : string) : option Z :=
  match Text.parse_int (Text.strip Text.is_space s) with
  | Some z => if int64 z then Some z else None
  | None => None
  end.

Definition is_int (s : string) : bool :=
  match int_literal s with Some _ => true | None => false end.

Definition unsigned (s : string) : string :=
  match s with
  | String "-" s' => s'
  | String "+" s' => s'
  | _ => s
  end.

(** A field that may be a number for [read_csv]: one made of digits,
    signs, the point, the exponent letter and white space, with a digit
    among them, or one of the words for infinity and not-a-number.  Every
    field the float parser takes is one of these; not every one of these
    is taken (an integer too large for 64 bits, a lone exponent letter). *)
Definition number_like (s : string) : bool :=
  is_int s
  || (forallb (fun c => Text.is_digit c || Text.is_space c
                        || existsb (Ascii.eqb c) ["+"; "-"; "."; "e"; "E"]%char)
              (list_ascii_of_string s)
      && existsb Text.is_digit (list_ascii_of_string s))
  || mem (unsigned (Text.lowercase (Text.strip Text.is_space s)))
         ["inf"; "infinity"; "nan"].

(** A field that may be a truth value for [read_csv] ([True], [TRUE],
    [true], [False], [FALSE], [false] are). *)
Definition bool_like (s : string) : bool :=
  mem (Text.lowercase s) ["true"; "false"].

(** The cells of a column, from its fields.  pandas tries the integers,
    then the floats, then the truth values, and leaves a column that is
    none of these as texts; missing fields do not count, but an integer
    column that has one becomes a float column.  The columns of integer
    literals, with or without missing fields, and the columns with a
    field that is surely a text are typed as pandas types them.  The
    columns in between (every field number-like, or every field
    truth-like) are float64 or bool in pandas when its parsers take every
    field and object when they do not: here they get [Float] and [Bool]
    cells in both cases. *)
Definition typed (fields : list string) : list cell :=
  let vals := filter (fun s => negb (is_na s)) fields in
  if forallb is_int vals && negb (existsb is_na fields) then
    map (fun s => match int_literal s with Some z => Int z | None => NaN end) fields
  else if forallb number_like vals then
    map (fun s => if is_na s then NaN else Float s) fields
  else if forallb bool_like vals then
    map (fun s => if is_na s then NaN
                  else Bool (String.eqb (Text.lowercase s) "true")) fields
  else map read_cell fields.

(** The first stage of [read_csv]: the labels and the fields.  The lines
    named by [skiprows] and the blank lines are left out, the first line
    left is the header and every other one a row; a short row is filled
    with empty fields, a row longer than the header is an error, and so
    is a file with no line left.  (A first row longer than the header,
    which pandas takes as a row that starts with index columns, is an
    error here as well.) *)
Definition fields (text : string) (sep : ascii) (skiprows : list nat)
  : result (list string * list (list string)) :=
  let kept := drop_rows skiprows 0 (Text.readlines text) in
  let kept := filter (fun l => negb (blank sep l)) (map Text.chomp kept) in
  match kept with
  | [] => inl EmptyDataError
  | h :: body =>
      let cols := dedup_names [] 0 (Text.split sep h) in
      match mapR (fun l =>
                    let fs := Text.split sep l in
                    if Nat.leb (List.length fs) (List.length cols)
                    then inr (pad (List.length cols) fs)
                    else inl ParserError) body with
      | inl e => inl e
      | inr rs => inr (cols, rs)
      end
  end.

(** The second stage: every column is typed from its fields. *)
Definition convert (n : nat) (rs : list (list string)) : list (list cell) :=
  let cols := map (fun j => typed (map (fun r => nth j r "") rs)) (seq 0 n) in
  map (fun i => map (fun col => nth i col NaN) cols) (seq 0 (List.length rs)).

(** [pd.read_csv(text, sep=sep, skiprows=skiprows)] on the text of a file,
    for a [plain] text. *)
Definition read_csv (text : string) (sep : ascii) (skiprows : list nat)
  : result DataFrame :=
  match fields text sep skiprows with
  | inl e => inl e
  | inr (cols, rs) => inr (mkDF cols (convert (List.length cols) rs))
  end.

(** [df.rename(inplace=True, columns={old: new})]. *)
Definition rename (old new : string) (df : DataFrame) : DataFrame :=
  mkDF (map (fun c => if String.eqb c old then new else c) (columns df)) (rows df).

Definition notna (c : cell) : bool :=
  match c with NaN => false | _ => true end.

(** [df.dropna()]: the rows without a missing cell. *)
Definition dropna (df : DataFrame) : DataFrame :=
  mkDF (columns df) (filter (forallb notna) (rows df)).

(** [df[k]]: a column, by label.  (Under a label that heads several
    columns pandas gives a table; the script asks for no such label:
    [read_csv] leaves no label repeated and [rename] can repeat [Name]
    only.) *)
Definition getitem (df : DataFrame) (k : string) : result (list cell) :=
  match index_of k (columns df) with
  | Some j => inr (column_at j df)
  | None => inl (KeyError k)
  end.

(** [df[[k1, ..., kn]]]: the named columns, in the order asked for; a
    label that heads several columns gives all of them. *)
Definition getitems (df : DataFrame) (ks : list string) : result DataFrame :=
  match mapR (fun k => match positions k 0 (columns df) with
                       | [] => inl (KeyError k)
                       | js => inr (map (pair k) js)
                       end) ks with
  | inl e => inl e
  | inr sel =>
      inr (mkDF (map fst (List.concat sel))
                (map (fun r => map (fun p => nth (snd p) r NaN) (List.concat sel)) (rows df)))
  end.

(** [df[k] = v]: the columns under an existing label are replaced where
    they stand, a new label is added as the last column. *)
Definition setitem (df : DataFrame) (k : string) (v : list cell) : result DataFrame :=
  if Nat.eqb (List.length v) (List.length (rows df)) then
    match positions k 0 (columns df) with
    | [] => inr (mkDF (columns df ++ [k]) (map2 (fun r x => r ++ [x]) (rows df) v))
    | js => inr (mkDF (columns df)
                      (map2 (fun r x => fold_right (fun j r' => set_nth j x r') r js)
                            (rows df) v))
    end
  else inl (ValueError "Length of values does not match length of index").

(** [df[[k1, ..., kn]] = a] for a two dimensional [a]: column [i] of [a]
    is assigned to [ki], one after the other. *)
Fixpoint setitems_from (i : nat) (df : DataFrame) (ks : list string) (a : DataFrame)
  : result DataFrame :=
  match ks with
  | [] => inr df
  | k :: ks' =>
      match setitem df k (column_at i a) with
      | inl e => inl e
      | inr df' => setitems_from (S i) df' ks' a
      end
  end.

Definition setitems (df : DataFrame) (ks : list string) (a : DataFrame) : result DataFrame :=
  if Nat.eqb (List.length ks) (List.length (columns a)) then setitems_from 0 df ks a
  else inl (ValueError "Columns must be same length as key").

(** [df.iterrows()]: the rows, each as one series over the columns.  The
    values of a series share a type: in a table of integer and float
    columns only, the integers of a row come as floats. *)
Definition iterrows (df : DataFrame) : list (list cell) :=
  map (fun r =>
         if forallb (fun c => match c with Int _ | Float _ => true | _ => false end) r
            && existsb (fun c => match c with Float _ => true | _ => false end) r
         then map (fun c => match c with Int z => Float (Text.of_Z z) | _ => c end) r
         else r)
      (rows df).

(** The integer [b] stands for in [s & b]: an integer, or a truth value
    (1 and 0).  A float and a text are no operand of [&]. *)
Definition to_int (c : cell) : option Z :=
  match c with
  | Int z => Some z
  | Bool b => Some (Z.b2z b)
  | _ => None
  end.

(** The float64 nearest to an integer (ties to the even mantissa), as an
    integer. *)
Definition round53 (z : Z) : Z :=
  let a := Z.abs z in
  if Z.ltb a (2 ^ 53) then z
  else
    let e := (Z.log2 a - 52)%Z in
    let q := Z.shiftr a e in
    let r := (a - Z.shiftl q e)%Z in
    let h := Z.shiftl 1 (e - 1) in
    let q' := if Z.ltb h r || (Z.eqb r h && Z.odd q) then (q + 1)%Z else q in
    (Z.sgn z * Z.shiftl q' e)%Z.

Fixpoint take_digits (acc : Z) (n : nat) (s : string) : Z * nat * string :=
  match s with
  | EmptyString => (acc, n, EmptyString)
  | String c s' =>
      if Text.is_digit c
      then take_digits (10 * acc + Z.of_nat (nat_of_ascii c - 48)) (S n) s'
      else (acc, n, s)
  end.

Definition signed (s : string) : bool * string :=
  match s with
  | String "-" s' => (true, s')
  | String "+" s' => (false, s')
  | _ => (false, s)
  end.

(** A decimal literal [m * 10 ^ e]: sign, digits, an optional point and
    more digits, an optional exponent. *)
Definition decimal (s : string) : option (Z * Z) :=
  let (neg, s1) := signed (Text.strip Text.is_space s) in
  let '(i, ni, s2) := take_digits 0 0 s1 in
  let '(m, nf, s3) :=
    match s2 with
    | String "." t => take_digits i 0 t
    | _ => (i, 0, s2)
    end in
  let m := if neg then (- m)%Z else m in
  if Nat.eqb (ni + nf) 0 then None
  else
    match s3 with
    | EmptyString => Some (m, (- Z.of_nat nf)%Z)
    | String c t =>
        if Ascii.eqb (Text.lower c) "e" then
          let (eneg, t1) := signed t in
          let '(e, ne, t2) := take_digits 0 0 t1 in
          match ne, t2 with
          | S _, EmptyString =>
              Some (m, ((if eneg then - e else e) - Z.of_nat nf)%Z)
          | _, _ => None
          end
        else None
    end.

(** [s.fillna(0).replace("-", 0).astype(int)] on one cell. *)
Definition fillna0 (c : cell) : cell :=
  match c with NaN => Int 0 | _ => c end.

Definition replace_dash0 (c : cell) : cell :=
  match c with
  | Str s => if String.eqb s "-" then Int 0 else c
  | _ => c
  end.

(** [astype(int)], where [int] is int64: an integer stays, a truth value
    is 1 or 0, a text goes through [int()], a float is cut towards zero.  An integer literal
    under a float column has been through float64 and comes back rounded
    beyond 2^53; of another number the decimal value is cut (the rounding
    of its float, and what the cast gives beyond 64 bits, are not
    followed). *)
Definition astype_int (c : cell) : result cell :=
  match c with
  | Int z => inr (Int z)
  | Bool b => inr (Int (Z.b2z b))
  | Str s =>
      match Text.python_int s with
      | Some z => if int64 z then inr (Int z) else inl OverflowError
      | None => inl (ValueError ("invalid literal for int() with base 10: " ++ s))
      end
  | Float s =>
      match int_literal s, decimal s with
      | Some z, _ => if int64 (round53 z) then inr (Int (round53 z)) else inl OverflowError
      | None, Some (m, e) =>
          let z := if Z.leb 0 e then (m * 10 ^ e)%Z else Z.quot m (10 ^ (- e)) in
          if int64 z then inr (Int z) else inl OverflowError
      | None, None => inl (ValueError ("cannot convert to integer: " ++ s))
      end
  | NaN => inl (ValueError "cannot convert float NaN to integer")
  end.

(** [(s & b) > 0] for a column [s] of integers and a scalar [b]. *)
Definition and_positive (s : list cell) (b : cell) : result (list bool) :=
  match to_int b with
  | None => inl (TypeError "unsupported operand type(s) for &")
  | Some bz =>
      mapR (fun c => match c with
                     | Int m => inr (Z.ltb 0 (Z.land m bz))
                     | _ => inl (TypeError "unsupported operand type(s) for &")
                     end) s
  end.

(** [np.where(cond, x, y)] with scalars [x] and [y]. *)
Definition where_ {A : Type} (cond : list bool) (x y : A) : list A :=
  map (fun b : bool => if b then x else y) cond.

Definition int_cell (c : cell) : result Z :=
  match c with
  | Int z => inr z
  | _ => inl (TypeError "not an integer column")
  end.

(** [df.max(axis=1)]: the largest cell of every row; with no column at all
    the result is [NaN] for every row. *)
Definition row_max (r : list cell) : result cell :=
  match mapR int_cell r with
  | inl e => inl e
  | inr [] => inr NaN
  | inr (z :: zs) => inr (Int (fold_left Z.max zs z))
  end.

Definition max_axis1 (df : DataFrame) : result (list cell) :=
  mapR row_max (rows df).

(** [np.where(df > 0, True, "")]: numpy gives the two scalars one string
    type, so the marker is the text [True]. *)
Definition where_positive (df : DataFrame) : result DataFrame :=
  match mapR (mapR (fun c => match int_cell c with
                             | inl e => inl e
                             | inr z => inr (if Z.ltb 0 z then Str "True" else Str "")
                             end)) (rows df) with
  | inl e => inl e
  | inr rs => inr (mkDF (columns df) rs)
  end.

End Pandas.

(** ** The process: standard output, the file written, and how a run ends *)

(** What a run leaves behind: the lines printed and the file written by
    [to_csv], if any, as the path and the table stored in it. *)
Record World : Type := mkWorld
  { stdout : list string;
    outfile : option (string * DataFrame) }.

(** A run stops early through [exit(code)] or an exception nobody catches. *)
Inductive halt : Type :=
| SystemExit (code : Z)
| Uncaught (e : exn).

Definition M (A : Type) : Type := World -> World * (halt + A).

Definition ret {A : Type} (x : A) : M A := fun w => (w, inr x).

Definition bind {A B : Type} (c : M A) (k : A -> M B) : M B :=
  fun w =>
    match c w with
    | (w', inl h) => (w', inl h)
    | (w', inr x) => k x w'
    end.

Notation "x <- c ;; k" := (bind c (fun x => k))
  (at level 61, c at next level, right associativity).
Notation "c ;;; k" := (bind c (fun _ => k))
  (at level 61, right associativity).

Definition print (line : string) : M unit :=
  fun w => (mkWorld (stdout w ++ [line]) (outfile w), inr tt).

Definition exit {A : Type} (code : Z) : M A :=
  fun w => (w, inl (SystemExit code)).

(** A pandas or Python call that may raise. *)
Definition lift {A : Type} (r : result A) : M A :=
  fun w =>
    match r with
    | inl e => (w, inl (Uncaught e))
    | inr x => (w, inr x)
    end.

(** [df.to_csv(path, index=False)].  The write itself is taken to
    succeed: the path can be written. *)
Definition to_csv (df : DataFrame) (path : string) : M unit :=
  fun w => (mkWorld (stdout w) (Some (path, df)), inr tt).

(** The files the script can read: the text of a path, when it exists,
    as a file opened in text mode gives it: lines end in the newline
    character alone. *)
Definition FileSystem : Type := string -> option string.

Definition open (fs : FileSystem) (path : string) : M string :=
  match fs path with
  | Some text => ret text
  | None => lift (inl (FileNotFoundError path))
  end.

(** ** The script *)

(** The parsed command line; [input] and [output] are paths, written as
    [str(path)] prints them. *)
Record Args : Type := mkArgs
  { input : string;
    output : string;
    debug : bool;
    verbose : bool }.

(** [parse_args()] on an empty command line. *)
Definition default_args : Args := mkArgs "vmh.tsv" "nsxfint.csv" false false.

Section Script.

Variable args : Args.
Variable fs : FileSystem.

(** [log(msg, debug=, verbose=, fatal=)]. *)
Definition log (msg : string) (debug_ verbose_ fatal : bool) : M unit :=
  if debug_ && debug args then print ("DEBUG: " ++ msg)
  else if verbose_ && verbose args then print ("VERBOSE: " ++ msg)
  else if fatal then (print ("FATAL: " ++ msg) ;;; exit 1)
  else print ("INFO: " ++ msg).

(** The loop of [skip_rows]: the indices, counted from [i], of the lines
    that [split] on a tab leaves in one piece. *)
Fixpoint rows_to_skip (i : nat) (lines : list string) : list nat :=
  match lines with
  | [] => []
  | line :: rest =>
      if Nat.eqb (List.length (Text.split Text.tab line)) 1
      then i :: rows_to_skip (S i) rest
      else rows_to_skip (S i) rest
  end.

Definition skip_rows (vmh_path : string) : M (list nat) :=
  log "Determining rows to skip..." true false false ;;;
  text <- open fs vmh_path ;;
  let skip := rows_to_skip 0 (Text.readlines text) in
  log ("Rows to skip: " ++ Text.repr_list skip) true false false ;;;
  ret skip.

Definition editions : list string :=
  [""; "Base"; "Professional"; "Advanced"; "Enterprise Plus"].

(** [editions.index(x)]. *)
Definition editions_index (x : cell) : result cell :=
  match x with
  | Str e =>
      match Pandas.index_of e editions with
      | Some r => inr (Int (Z.of_nat r))
      | None => inl (ValueError (e ++ " is not in list"))
      end
  | _ => inl (ValueError "value is not in list")
  end.

(** [editions[x]], with Python's negative indices. *)
Definition editions_at (x : cell) : result cell :=
  match x with
  | Int z =>
      if (Z.leb 0 z && Z.ltb z 5)%Z then inr (Str (nth (Z.to_nat z) editions ""))
      else if (Z.leb (-5) z && Z.ltb z 0)%Z then inr (Str (nth (Z.to_nat (5 + z)) editions ""))
      else inl IndexError
  | _ => inl (TypeError "list indices must be integers or slices")
  end.

(** [row[k]] for a row of a table with the given column labels. *)
Definition row_get (cols : list string) (row : list cell) (k : string) : result cell :=
  match Pandas.index_of k cols with
  | Some j => inr (nth j row NaN)
  | None => inl (KeyError k)
  end.

(** A cell used as a column label; a label that is a number or a truth
    value is written as [to_csv] prints it in the header. *)
Definition label (c : cell) : result string :=
  match c with
  | Str s => inr s
  | Int z => inr (Text.of_Z z)
  | Float s => inr s
  | Bool b => inr (if b then "True" else "False")
  | NaN => inl (TypeError "column label is missing")
  end.

(** One turn of the loop over the catalog: the value is computed first
    (the mask test, then the rank), the label last. *)
Definition add_feature (cols : list string) (nsxfint_df : DataFrame) (row : list cell)
  : result DataFrame :=
  mask <~ Pandas.getitem nsxfint_df "NsxFInt" ;;
  bit <~ row_get cols row "NSXFINT" ;;
  cond <~ Pandas.and_positive mask bit ;;
  ed <~ row_get cols row "Edition" ;;
  rank <~ editions_index ed ;;
  name <~ row_get cols row "NSX Feature Name" ;;
  k <~ label name ;;
  Pandas.setitem nsxfint_df k (Pandas.where_ cond rank (Int 0)).

(** [for _, row in nsxf_df.iterrows(): ...]. *)
Fixpoint add_features (cols : list string) (nsxfint_df : DataFrame)
  (catalog : list (list cell)) : result DataFrame :=
  match catalog with
  | [] => inr nsxfint_df
  | row :: rest =>
      df' <~ add_feature cols nsxfint_df row ;;
      add_features cols df' rest
  end.

(** [nsxf_df["NSX Feature Name"]], as a list of labels. *)
Definition feature_names (nsxf_df : DataFrame) : result (list string) :=
  names <~ Pandas.getitem nsxf_df "NSX Feature Name" ;;
  mapR label names.

(** The part of [main] between the two reads and the write: from the
    report and the catalog as loaded to the table that is written. *)
Definition resolve (vmh_df nsxf_df : DataFrame) : result DataFrame :=
  (* Replace "-" with 0 for NSXFInt in VMH *)
  raw <~ Pandas.getitem vmh_df "NsxFInt" ;;
  ints <~ mapR Pandas.astype_int (map Pandas.replace_dash0 (map Pandas.fillna0 raw)) ;;
  vmh_df <~ Pandas.setitem vmh_df "NsxFInt" ints ;;
  (* Create new DF with VM names and NSX Features *)
  nsxfint_df <~ Pandas.getitems vmh_df ["Name"; "NsxFInt"] ;;
  (* Add column for each NSX Feature *)
  nsxfint_df <~ add_features (columns nsxf_df) nsxfint_df (Pandas.iterrows nsxf_df) ;;
  (* Calculate the NSX edition for each row *)
  names <~ feature_names nsxf_df ;;
  sel <~ Pandas.getitems nsxfint_df names ;;
  best <~ Pandas.max_axis1 sel ;;
  nsxfint_df <~ Pandas.setitem nsxfint_df "NSX Edition" best ;;
  sel <~ Pandas.getitems nsxfint_df names ;;
  marks <~ Pandas.where_positive sel ;;
  nsxfint_df <~ Pandas.setitems nsxfint_df names marks ;;
  ranks <~ Pandas.getitem nsxfint_df "NSX Edition" ;;
  named <~ mapR editions_at ranks ;;
  Pandas.setitem nsxfint_df "NSX Edition" named.

Definition main : M unit :=
  (* Check provided file exists and is CSV or TSV. *)
  (match fs (input args) with
   | None => log ("Input file " ++ input args ++ " does not exist.") false false true
   | Some _ =>
       if negb (Pandas.mem (Text.suffix (input args)) [".csv"; ".tsv"])
       then log ("Input file " ++ input args ++ " is not CSV or TSV.") false false true
       else ret tt
   end) ;;;
  (* Parse and clean input file. *)
  log ("Reading input file " ++ input args ++ "...") false true false ;;;
  skip <- skip_rows (input args) ;;
  text <- open fs (input args) ;;
  vmh_df <- lift (Pandas.read_csv text Text.tab skip) ;;
  let vmh_df := Pandas.rename "#Name" "Name" vmh_df in
  (* Read in NSX Features *)
  log "Reading NSX Features..." false true false ;;;
  ftext <- open fs "nsx_features.csv" ;;
  nsxf_df <- lift (Pandas.read_csv ftext Text.comma []) ;;
  let nsxf_df := Pandas.dropna nsxf_df in
  nsxfint_df <- lift (resolve vmh_df nsxf_df) ;;
  (* Save to CSV *)
  to_csv nsxfint_df (output args).

End Script.

(** The whole process from the parsed command line on: [main()] under
    [args], started with nothing printed and nothing written.  The exit
    status is 0 when [main] returns, the code of [exit(code)], and 1 after
    an uncaught exception.  What [parse_args()] does before, on its own,
    with a command line it refuses (usage message, status 2) or with
    [--help] (status 0) is no part of this. *)
Definition run (args : Args) (fs : FileSystem) : World * Z :=
  match main args fs (mkWorld [] None) with
  | (w, inr _) => (w, 0%Z)
  | (w, inl (SystemExit code)) => (w, code)
  | (w, inl (Uncaught _)) => (w, 1%Z)
  end.

(** ** How a run reaches the resolver *)

Definition start : World := mkWorld [] None.

(** The two tables as [main] hands them to [resolve]: the input exists and
    has one of the two accepted suffixes, the report is read with the tab
    as separator and without the lines [skip_rows] names, the catalog is
    read with the comma and filtered by [dropna]. *)
Definition loads (args : Args) (fs : FileSystem) (vmh_df nsxf_df : DataFrame) : Prop :=
  exists text vmh0 ftext nsxf0,
    fs (input args) = Some text /\
    Pandas.mem (Text.suffix (input args)) [".csv"; ".tsv"] = true /\
    Pandas.read_csv text Text.tab (rows_to_skip 0 (Text.readlines text)) = inr vmh0 /\
    vmh_df = Pandas.rename "#Name" "Name" vmh0 /\
    fs "nsx_features.csv" = Some ftext /\
    Pandas.read_csv ftext Text.comma [] = inr nsxf0 /\
    nsxf_df = Pandas.dropna nsxf0.

(** ** The records behind the two tables *)

(** A VM usage record: the name as the report has it and the mask as
    normalised. *)
Record VM : Type := mkVM
  { vm_name : cell;
    usage_mask : Z }.

(** A feature definition of the catalog. *)
Record Feature : Type := mkFeature
  { feature_name : string;
    bit_value : Z;
    edition : string }.

(** [fillna(0).replace("-", 0).astype(int)] on one cell. *)
Definition normalize (c : cell) : result cell :=
  Pandas.astype_int (Pandas.replace_dash0 (Pandas.fillna0 c)).

(** Every row has a cell for every column. *)
Definition rectangular (df : DataFrame) : Prop :=
  Forall (fun r => List.length r = List.length (columns df)) (rows df).

(** The mask a cell of the mask column stands for, where the
    normalisation is followed to the letter: a missing field and the
    placeholder are 0, an integer is itself, a text is what [int()] makes
    of it when that fits 64 bits, and an integer literal under a float
    column is itself as long as float64 holds it exactly. *)
Definition mask_of (c : cell) : option Z :=
  match c with
  | NaN => Some 0%Z
  | Int z => Some z
  | Str s =>
      if String.eqb s "-" then Some 0%Z
      else match Text.python_int s with
           | Some z => if Pandas.int64 z then Some z else None
           | None => None
           end
  | Float s =>
      match Pandas.int_literal s with
      | Some z => if Z.leb (Z.abs z) (2 ^ 53) then Some z else None
      | None => None
      end
  | Bool _ => None
  end.

(** A VM name as the Report Loader delivers it: a text, an integer (a
    column of names that are all integer literals) or missing. *)
Definition name_cell (c : cell) : bool :=
  match c with
  | Float _ | Bool _ => false
  | _ => true
  end.

(** The report holds the records [vms], one per row: one column is
    labelled [Name], one [NsxFInt], and every row has a name and a mask. *)
Definition report_rows (vmh_df : DataFrame) (vms : list VM) : Prop :=
  exists jn jm,
    Pandas.positions "Name" 0 (columns vmh_df) = [jn] /\
    Pandas.positions "NsxFInt" 0 (columns vmh_df) = [jm] /\
    Forall2 (fun r vm =>
               nth jn r NaN = vm_name vm /\
               name_cell (vm_name vm) = true /\
               mask_of (nth jm r NaN) = Some (usage_mask vm))
            (rows vmh_df) vms.

(** The catalog holds the definitions [feats], one per row: a name and
    an edition that are texts, and a bit value that is an integer (the
    column [NSXFINT] of the file holds integer literals only). *)
Definition catalog_rows (nsxf_df : DataFrame) (feats : list Feature) : Prop :=
  exists jn jb je,
    Pandas.index_of "NSX Feature Name" (columns nsxf_df) = Some jn /\
    Pandas.index_of "NSXFINT" (columns nsxf_df) = Some jb /\
    Pandas.index_of "Edition" (columns nsxf_df) = Some je /\
    Forall2 (fun r f =>
               nth jn r NaN = Str (feature_name f) /\
               nth jb r NaN = Int (bit_value f) /\
               nth je r NaN = Str (edition f))
            (rows nsxf_df) feats.

(** The labels the script itself gives to columns. *)
Definition reserved : list string := ["Name"; "NsxFInt"; "NSX Edition"].

(** The catalog the data model of the specification asks for: editions of
    the fixed list, and feature names that differ from each other and from
    the labels the script gives to its own columns (a name that collides
    with a column writes over it). *)
Record valid_catalog (feats : list Feature) : Prop := mkValid
  { valid_editions : Forall (fun f => In (edition f) editions) feats;
    valid_nodup : NoDup (map feature_name feats);
    valid_fresh : Forall (fun f => ~ In (feature_name f) reserved) feats }.

(** The resolver as the specification words it. *)
Module Spec.

(** Activation rule: [(usage_mask AND bit_value) > 0]. *)
Definition active (vm : VM) (f : Feature) : bool :=
  Z.ltb 0 (Z.land (usage_mask vm) (bit_value f)).

(** Rank of an edition: its index in the fixed ordered list. *)
Definition rank (f : Feature) : Z :=
  match Pandas.index_of (edition f) editions with
  | Some r => Z.of_nat r
  | None => 0%Z
  end.

(** Per-feature rank: the rank of the edition if active, else 0. *)
Definition contributed (vm : VM) (f : Feature) : Z :=
  if active vm f then rank f else 0%Z.

(** The largest contributed rank, 0 when no feature is active. *)
Definition resolved_rank (vm : VM) (feats : list Feature) : Z :=
  fold_right (fun f acc => Z.max (contributed vm f) acc) 0%Z feats.

Definition edition_name (r : Z) : string := nth (Z.to_nat r) editions "".

End Spec.

(** The table with one row [f x] per element [x] of [xs]. *)
Definition frame {A : Type} (cols : list string) (f : A -> list cell) (xs : list A)
  : DataFrame :=
  mkDF cols (map f xs).

Definition base_row (vm : VM) : list cell := [vm_name vm; Int (usage_mask vm)].

Definition contributed_cell (vm : VM) (f : Feature) : cell := Int (Spec.contributed vm f).

(** The marker of a feature column: the text [True] for a positive rank,
    the empty text for rank 0. *)
Definition marker (vm : VM) (f : Feature) : cell :=
  if Z.ltb 0 (Spec.contributed vm f) then Str "True" else Str "".

(** The row written for a VM. *)
Definition resolved_row (feats : list Feature) (vm : VM) : list cell :=
  base_row vm ++ map (marker vm) feats
    ++ [Str (Spec.edition_name (Spec.resolved_rank vm feats))].

(** The table written for the records [vms] and the catalog [feats]. *)
Definition resolved (feats : list Feature) (vms : list VM) : DataFrame :=
  frame (["Name"; "NsxFInt"] ++ map feature_name feats ++ ["NSX Edition"])
        (resolved_row feats) vms.

(** The table after the loop has handled the features [fs]: one rank
    column per feature, after the two base columns. *)
Definition ranked (vms : list VM) (fs : list Feature) : DataFrame :=
  frame (["Name"; "NsxFInt"] ++ map feature_name fs)
        (fun vm => base_row vm ++ map (contributed_cell vm) fs) vms.

(** The two files, where they exist, are [plain] texts. *)
Definition plain_files (args : Args) (fs : FileSystem) : Prop :=
  match fs (input args) with Some text => Pandas.plain text | None => true end
  && match fs "nsx_features.csv" with Some text => Pandas.plain text | None => true end
  = true.

(** The run reads, from plain files, a report that holds the records
    [vms] and a catalog that holds the definitions [feats]. *)
Definition loaded (args : Args) (fs : FileSystem) (vms : list VM) (feats : list Feature)
  : Prop :=
  exists vmh_df nsxf_df,
    plain_files args fs /\
    loads args fs vmh_df nsxf_df /\
    report_rows vmh_df vms /\
    catalog_rows nsxf_df feats.

(** The claim of a modal delimiter count, in the words of the
    specification. *)
Module SkipSpec.

Definition delimiter_counts (lines : list string) : list nat :=
  map (Text.count Text.tab) lines.

Definition occurrences (k : nat) (counts : list nat) : nat :=
  List.length (filter (Nat.eqb k) counts).

(** [m] is a most frequent delimiter count of the table. *)
Definition modal (counts : list nat) (m : nat) : Prop :=
  In m counts /\ forall k, occurrences k counts <= occurrences m counts.

End SkipSpec.

(** ** Sample inputs *)

Module Demo.

Definition tsv (fields : list string) : string :=
  Text.join (String Text.tab "") fields.

Definition text_of (lines : list string) : string :=
  String.concat "" (map (fun l => (l ++ String Text.newline "")%string) lines).

Definition files (report catalog : string) : FileSystem :=
  fun path =>
    if String.eqb path "vmh.tsv" then Some report
    else if String.eqb path "nsx_features.csv" then Some catalog
    else None.

(** A report with a title line, a VM with both bits set, a placeholder, a
    missing field and a negative mask. *)
Definition report : string :=
  text_of ["Usage Meter report";
           tsv ["#Name"; "NsxFInt"];
           tsv ["vm1"; "3"];
           tsv ["vm2"; "-"];
           tsv ["vm3"; ""];
           tsv ["vm4"; "-5"]].

Definition vmh0 : DataFrame :=
  mkDF ["#Name"; "NsxFInt"]
       [[Str "vm1"; Str "3"]; [Str "vm2"; Str "-"]; [Str "vm3"; NaN];
        [Str "vm4"; Str "-5"]].

Definition vms : list VM :=
  [mkVM (Str "vm1") 3; mkVM (Str "vm2") 0; mkVM (Str "vm3") 0; mkVM (Str "vm4") (-5)].

(** The catalog of scenario 3: bit 1 for Base, bit 2 for Enterprise Plus. *)
Definition catalog : string :=
  text_of ["NSX Feature Name,NSXFINT,Edition";
           "Switching,1,Base";
           "Routing,2,Enterprise Plus"].

Definition nsxf0 : DataFrame :=
  mkDF ["NSX Feature Name"; "NSXFINT"; "Edition"]
       [[Str "Switching"; Int 1; Str "Base"];
        [Str "Routing"; Int 2; Str "Enterprise Plus"]].

Definition feats : list Feature :=
  [mkFeature "Switching" 1 "Base"; mkFeature "Routing" 2 "Enterprise Plus"].

(** The catalog of scenarios 1 and 2. *)
Definition catalog1 : string :=
  text_of ["NSX Feature Name,NSXFINT,Edition"; "Micro-segmentation,4,Advanced"].


Definition report1 : string :=
  text_of [tsv ["Name"; "NsxFInt"]; tsv ["vm1"; "4"]; tsv ["vm2"; "0"]].

(** A catalog whose only row misses its edition. *)
Definition catalog_dropped : string :=
  text_of ["NSX Feature Name,NSXFINT,Edition"; "Micro-segmentation,4,"].


(** A report without any VM. *)
Definition report_empty : string := text_of [tsv ["Name"; "NsxFInt"]].

(** The report of scenario 1 with commas, under a [.csv] name. *)
Definition report_commas : string := text_of ["Name,NsxFInt"; "vm1,4"].

Definition files_commas : FileSystem :=
  fun path =>
    if String.eqb path "vmh.csv" then Some report_commas
    else if String.eqb path "nsx_features.csv" then Some catalog1
    else None.

End Demo.

Ltac demo_loaded :=
  exists (Pandas.rename "#Name" "Name" Demo.vmh0), (Pandas.dropna Demo.nsxf0);
  split; [|split; [|split]];
  [ reflexivity
  | exists Demo.report, Demo.vmh0, Demo.catalog, Demo.nsxf0;
    repeat split; vm_compute; reflexivity
  | exists 0, 1; repeat split; repeat constructor
  | exists 0, 1, 2; repeat split; repeat constructor ].

Ltac demo_valid :=
  constructor;
  [ repeat constructor; simpl; tauto
  | repeat constructor; simpl; intuition discriminate
  | repeat constructor; simpl; intuition discriminate ].

(** A line that holds at least one tab. *)
Definition has_tab (line : string) : bool :=
  negb (Nat.eqb (Text.count Text.tab line) 0).

(** * Proofs *)

Ltac run_step :=
  cbn -[Pandas.mem Text.suffix Pandas.read_csv resolve rows_to_skip
        Text.readlines Text.repr_list String.append].

Ltac run_flags args :=
  unfold run, main, skip_rows, log, bind, print, exit, ret, lift, open, to_csv, start;
  destruct (debug args), (verbose args); run_step;
  repeat (match goal with
          | H : ?l = _ |- context [?l] => rewrite H
          end; run_step).

Lemma main_loads (args : Args) (fs : FileSystem) (vmh_df nsxf_df : DataFrame) :
  loads args fs vmh_df nsxf_df ->
  outfile (fst (main args fs start)) =
    match resolve vmh_df nsxf_df with
    | inr df => Some (output args, df)
    | inl _ => None
    end /\
  snd (main args fs start) =
    match resolve vmh_df nsxf_df with
    | inr _ => inr tt
    | inl e => inl (Uncaught e)
    end.
Proof.
  intros (text & vmh0 & ftext & nsxf0 & Hin & Hsuf & Hread & -> & Hcat & Hreadc & ->).
  run_flags args; destruct (resolve _ _); run_step; split; reflexivity.
Qed.

Lemma run_loads (args : Args) (fs : FileSystem) (vmh_df nsxf_df : DataFrame) :
  loads args fs vmh_df nsxf_df ->
  outfile (fst (run args fs)) =
    match resolve vmh_df nsxf_df with
    | inr df => Some (output args, df)
    | inl _ => None
    end /\
  snd (run args fs) =
    match resolve vmh_df nsxf_df with
    | inr _ => 0%Z
    | inl _ => 1%Z
    end.
Proof.
  intros H. destruct (main_loads _ _ _ _ H) as [Ho Hs].
  unfold run. fold start. destruct (main args fs start) as [w r]. simpl in *.
  rewrite Hs in *. destruct (resolve vmh_df nsxf_df); run_step; auto.
Qed.

(** A run that does not reach the resolver writes nothing and ends with
    status 1. *)
Lemma run_inv (args : Args) (fs : FileSystem) :
  (exists vmh_df nsxf_df, loads args fs vmh_df nsxf_df) \/
  (outfile (fst (run args fs)) = None /\ snd (run args fs) = 1%Z).
Proof.
  destruct (fs (input args)) as [text|] eqn:Hin.
  2:{ right. run_flags args; auto. }
  destruct (Pandas.mem (Text.suffix (input args)) [".csv"; ".tsv"]) eqn:Hsuf.
  2:{ right. run_flags args; auto. }
  destruct (Pandas.read_csv text Text.tab (rows_to_skip 0 (Text.readlines text)))
    as [e|vmh0] eqn:Hread.
  { right. run_flags args; auto. }
  destruct (fs "nsx_features.csv") as [ftext|] eqn:Hcat.
  2:{ right. run_flags args; auto. }
  destruct (Pandas.read_csv ftext Text.comma []) as [e|nsxf0] eqn:Hreadc.
  { right. run_flags args; auto. }
  left. exists (Pandas.rename "#Name" "Name" vmh0), (Pandas.dropna nsxf0).
  exists text, vmh0, ftext, nsxf0. auto 10.
Qed.

(** ** Lists, labels and rows *)

Lemma mapR_map {A B C : Type} (f : B -> result C) (g : A -> B) (h : A -> C) (l : list A) :
  (forall x, In x l -> f (g x) = inr (h x)) ->
  mapR f (map g l) = inr (map h l).
Proof.
  induction l as [|x l IH]; intros H; simpl; [reflexivity|].
  rewrite (H x (or_introl eq_refl)), IH; [reflexivity|].
  intros y Hy. apply H. now right.
Qed.

Lemma mapR_inr {A B : Type} (f : A -> result B) (l : list A) (l' : list B) :
  mapR f l = inr l' -> Forall2 (fun x y => f x = inr y) l l'.
Proof.
  revert l'. induction l as [|x l IH]; simpl; intros l' H.
  - injection H as <-. constructor.
  - destruct (f x) as [e|y] eqn:Hx; [discriminate|].
    destruct (mapR f l) as [e|ys]; [discriminate|].
    injection H as <-. constructor; auto.
Qed.

Lemma map2_map {A B C D : Type} (f : B -> C -> D) (g : A -> B) (h : A -> C) (l : list A) :
  Pandas.map2 f (map g l) (map h l) = map (fun x => f (g x) (h x)) l.
Proof.
  unfold Pandas.map2. induction l as [|x l IH]; simpl; [reflexivity|].
  now rewrite IH.
Qed.

Lemma index_of_none (k : string) (l : list string) :
  ~ In k l -> Pandas.index_of k l = None.
Proof.
  induction l as [|x l IH]; simpl; intros H; [reflexivity|].
  destruct (String.eqb_spec k x) as [->|Hne]; [exfalso; auto|].
  rewrite IH; auto.
Qed.

Lemma index_of_app (k : string) (pre post : list string) :
  ~ In k pre -> Pandas.index_of k (pre ++ k :: post) = Some (List.length pre).
Proof.
  induction pre as [|x pre IH]; simpl; intros H.
  - now rewrite String.eqb_refl.
  - destruct (String.eqb_spec k x) as [->|Hne]; [exfalso; auto|].
    rewrite IH; auto.
Qed.

Lemma index_of_some (k : string) (l : list string) (j : nat) :
  Pandas.index_of k l = Some j -> nth_error l j = Some k.
Proof.
  revert j. induction l as [|x l IH]; simpl; intros j H; [discriminate|].
  destruct (String.eqb_spec k x) as [->|Hne].
  - injection H as <-. reflexivity.
  - destruct (Pandas.index_of k l) as [i|]; [|discriminate].
    injection H as <-. simpl. auto.
Qed.

Lemma index_of_lt (k : string) (l : list string) (j : nat) :
  Pandas.index_of k l = Some j -> j < List.length l.
Proof.
  intros H. apply nth_error_Some. rewrite (index_of_some _ _ _ H). discriminate.
Qed.

Lemma positions_none (k : string) (l : list string) (i : nat) :
  ~ In k l -> Pandas.positions k i l = [].
Proof.
  revert i. induction l as [|x l IH]; simpl; intros i H; [reflexivity|].
  destruct (String.eqb_spec k x) as [->|Hne]; [exfalso; auto|].
  apply IH. auto.
Qed.

Lemma positions_app (k : string) (pre post : list string) (i : nat) :
  ~ In k pre -> ~ In k post ->
  Pandas.positions k i (pre ++ k :: post) = [i + List.length pre].
Proof.
  revert i. induction pre as [|x pre IH]; simpl; intros i Hpre Hpost.
  - now rewrite String.eqb_refl, positions_none, Nat.add_0_r.
  - destruct (String.eqb_spec k x) as [->|Hne]; [exfalso; auto|].
    rewrite IH by auto. f_equal. lia.
Qed.

Lemma positions_first (k : string) (l : list string) (i : nat) :
  match Pandas.positions k i l with
  | [] => Pandas.index_of k l = None
  | j :: _ => i <= j /\ Pandas.index_of k l = Some (j - i)
  end.
Proof.
  revert i. induction l as [|x l IH]; simpl; intros i; [reflexivity|].
  destruct (String.eqb_spec k x) as [->|Hne].
  - split; [lia|]. now rewrite Nat.sub_diag.
  - specialize (IH (S i)). destruct (Pandas.positions k (S i) l) as [|j js].
    + now rewrite IH.
    + destruct IH as [Hle ->]. split; [lia|]. simpl. f_equal. lia.
Qed.

Lemma positions_index_of (k : string) (l : list string) (j : nat) :
  Pandas.positions k 0 l = [j] -> Pandas.index_of k l = Some j.
Proof.
  intros H. pose proof (positions_first k l 0) as Hf. rewrite H in Hf.
  destruct Hf as [_ ->]. now rewrite Nat.sub_0_r.
Qed.

Lemma positions_nil_index_of (k : string) (l : list string) :
  Pandas.positions k 0 l = [] <-> Pandas.index_of k l = None.
Proof.
  pose proof (positions_first k l 0) as Hf.
  destruct (Pandas.positions k 0 l) as [|j js]; split; intros H; try easy.
  destruct Hf as [_ Hf]. congruence.
Qed.

Lemma set_nth_app (p : list cell) (x y : cell) (q : list cell) :
  Pandas.set_nth (List.length p) x (p ++ y :: q) = p ++ x :: q.
Proof.
  induction p as [|c p IH]; simpl; [reflexivity|]. now rewrite IH.
Qed.

Lemma nth_set_nth_same (j : nat) (x : cell) (r : list cell) :
  j < List.length r -> nth j (Pandas.set_nth j x r) NaN = x.
Proof.
  revert j. induction r as [|c r IH]; simpl; intros j H; [lia|].
  destruct j; simpl; [reflexivity|]. apply IH. lia.
Qed.

Lemma nth_set_nth_other (i j : nat) (x : cell) (r : list cell) :
  i <> j -> nth i (Pandas.set_nth j x r) NaN = nth i r NaN.
Proof.
  revert i j. induction r as [|c r IH]; intros i j H; [destruct j; reflexivity|].
  destruct j, i; simpl; auto; congruence.
Qed.

Lemma nth_app_here {A : Type} (p : list A) (x d : A) (q : list A) :
  nth (List.length p) (p ++ x :: q) d = x.
Proof.
  induction p as [|c p IH]; simpl; auto.
Qed.

(** Reading the cells at positions [|pre|, ..., |pre| + |mid| - 1]. *)
Lemma select_middle {A : Type} (pre mid post : list A) (d : A) :
  map (fun j => nth j (pre ++ mid ++ post) d) (seq (List.length pre) (List.length mid)) = mid.
Proof.
  revert pre. induction mid as [|x mid IH]; intros pre; simpl; [reflexivity|].
  rewrite nth_app_here. f_equal.
  specialize (IH (pre ++ [x])).
  rewrite length_app, Nat.add_1_r, <- app_assoc in IH. exact IH.
Qed.

(** Looking up labels that stand, without repetition, in the middle. *)
Lemma lookup_middle (pre mid post : list string) :
  NoDup mid ->
  (forall k, In k mid -> ~ In k pre) ->
  (forall k, In k mid -> ~ In k post) ->
  Forall2 (fun k j => Pandas.positions k 0 (pre ++ mid ++ post) = [j])
          mid (seq (List.length pre) (List.length mid)).
Proof.
  revert pre. induction mid as [|x mid IH]; intros pre Hnd Hpre Hpost; simpl;
    constructor.
  - inversion Hnd as [|? ? Hx Hnd']; subst.
    rewrite positions_app; [reflexivity|apply Hpre; now left|].
    intros Hin. apply in_app_or in Hin as [Hin|Hin]; [auto|].
    apply (Hpost x); [now left|exact Hin].
  - inversion Hnd as [|? ? Hx Hnd']; subst.
    specialize (IH (pre ++ [x]) Hnd').
    rewrite length_app, Nat.add_1_r, <- app_assoc in IH. simpl in IH.
    apply IH.
    + intros k Hk Hin. apply in_app_or in Hin as [Hin|[<-|[]]]; [|auto].
      apply (Hpre k); auto. now right.
    + intros k Hk. apply Hpost. now right.
Qed.

(** ** Tables whose rows are computed record by record *)

Section Frames.

Context {A : Type}.
Variable xs : list A.

Lemma frame_ext (cols : list string) (f g : A -> list cell) :
  (forall x, f x = g x) -> frame cols f xs = frame cols g xs.
Proof.
  intros H. unfold frame. f_equal. apply map_ext. exact H.
Qed.

Lemma getitem_frame (cols : list string) (f : A -> list cell) (k : string) (j : nat) :
  Pandas.index_of k cols = Some j ->
  Pandas.getitem (frame cols f xs) k = inr (map (fun x => nth j (f x) NaN) xs).
Proof.
  intros H. unfold Pandas.getitem, Pandas.column_at, frame. simpl.
  now rewrite H, map_map.
Qed.

Lemma column_at_frame (cols : list string) (f : A -> list cell) (j : nat) :
  Pandas.column_at j (frame cols f xs) = map (fun x => nth j (f x) NaN) xs.
Proof.
  unfold Pandas.column_at, frame. simpl. now rewrite map_map.
Qed.

Lemma setitem_frame_new (cols : list string) (f : A -> list cell) (k : string)
  (g : A -> cell) :
  ~ In k cols ->
  Pandas.setitem (frame cols f xs) k (map g xs)
  = inr (frame (cols ++ [k]) (fun x => f x ++ [g x]) xs).
Proof.
  intros H. unfold Pandas.setitem, frame. simpl.
  now rewrite !length_map, Nat.eqb_refl, (positions_none _ _ _ H), map2_map.
Qed.

Lemma setitem_frame_old (cols : list string) (f : A -> list cell) (k : string)
  (g : A -> cell) (j : nat) :
  Pandas.positions k 0 cols = [j] ->
  Pandas.setitem (frame cols f xs) k (map g xs)
  = inr (frame cols (fun x => Pandas.set_nth j (g x) (f x)) xs).
Proof.
  intros H. unfold Pandas.setitem, frame. simpl.
  now rewrite !length_map, Nat.eqb_refl, H, map2_map.
Qed.

Lemma select_columns (cols ks : list string) (js : list nat) :
  Forall2 (fun k j => Pandas.positions k 0 cols = [j]) ks js ->
  exists sel,
    mapR (fun k => match Pandas.positions k 0 cols with
                   | [] => inl (KeyError k)
                   | js => inr (map (pair k) js)
                   end) ks = inr sel /\
    map fst (List.concat sel) = ks /\
    map snd (List.concat sel) = js.
Proof.
  induction 1 as [|k j ks js Hk _ (sel & Hsel & Hfst & Hsnd)].
  - exists []. repeat split.
  - exists ([(k, j)] :: sel). cbn [mapR]. rewrite Hk, Hsel. cbn.
    now rewrite Hfst, Hsnd.
Qed.

Lemma getitems_frame (cols : list string) (f : A -> list cell) (ks : list string)
  (js : list nat) :
  Forall2 (fun k j => Pandas.positions k 0 cols = [j]) ks js ->
  Pandas.getitems (frame cols f xs) ks
  = inr (frame ks (fun x => map (fun j => nth j (f x) NaN) js) xs).
Proof.
  intros H. destruct (select_columns cols ks js H) as (sel & Hsel & Hfst & Hsnd).
  unfold Pandas.getitems, frame. cbn [columns rows].
  rewrite Hsel, Hfst, map_map. do 2 f_equal.
  apply map_ext. intros x. rewrite <- Hsnd, map_map. reflexivity.
Qed.

Lemma max_axis1_frame (cols : list string) (f : A -> list cell) (g : A -> cell) :
  (forall x, In x xs -> Pandas.row_max (f x) = inr (g x)) ->
  Pandas.max_axis1 (frame cols f xs) = inr (map g xs).
Proof.
  intros H. unfold Pandas.max_axis1, frame. simpl.
  apply mapR_map. auto.
Qed.

Lemma where_positive_frame (cols : list string) (f : A -> list Z) :
  Pandas.where_positive (frame cols (fun x => map Int (f x)) xs)
  = inr (frame cols (fun x => map (fun z => if Z.ltb 0 z then Str "True" else Str "")
                                (f x)) xs).
Proof.
  unfold Pandas.where_positive, frame. simpl.
  rewrite mapR_map with (h := fun x => map (fun z => if Z.ltb 0 z then Str "True" else Str "") (f x));
    [reflexivity|].
  intros x _. apply mapR_map. intros z _. reflexivity.
Qed.

(** Assigning a block of columns that stand, in order, in the middle of
    the table. *)
Lemma setitems_from_frame (B : Type) (lab : B -> string) (g h : A -> B -> cell)
  (post : list string) (q : A -> list cell) (acols : list string) (fs : list B) :
  forall (pre : list string) (p pa : A -> list cell) (i : nat),
    (forall x, List.length (p x) = List.length pre) ->
    (forall x, List.length (pa x) = i) ->
    NoDup (map lab fs) ->
    (forall b, In b fs -> ~ In (lab b) pre) ->
    (forall b, In b fs -> ~ In (lab b) post) ->
    Pandas.setitems_from i
      (frame (pre ++ map lab fs ++ post) (fun x => p x ++ map (g x) fs ++ q x) xs)
      (map lab fs)
      (frame acols (fun x => pa x ++ map (h x) fs) xs)
    = inr (frame (pre ++ map lab fs ++ post) (fun x => p x ++ map (h x) fs ++ q x) xs).
Proof.
  induction fs as [|b fs IH]; intros pre p pa i Hp Hpa Hnd Hpre Hpost; simpl;
    [reflexivity|].
  rewrite column_at_frame.
  rewrite map_ext with (g := fun x => h x b)
    by (intros x; rewrite <- (Hpa x); apply nth_app_here).
  inversion Hnd as [|? ? Hb Hnd']; subst.
  rewrite setitem_frame_old with (j := List.length pre).
  2:{ rewrite positions_app; [reflexivity|apply Hpre; now left|].
      intros Hin. apply in_app_or in Hin as [Hin|Hin]; [auto|].
      apply (Hpost b); [now left|exact Hin]. }
  specialize (IH (pre ++ [lab b]) (fun x => p x ++ [h x b]) (fun x => pa x ++ [h x b]) (S i)).
  rewrite frame_ext with (g := fun x => (p x ++ [h x b]) ++ map (g x) fs ++ q x)
    by (intros x; rewrite <- (Hp x), set_nth_app, <- app_assoc; reflexivity).
  rewrite frame_ext with (f := fun x => pa x ++ h x b :: map (h x) fs)
                         (g := fun x => (pa x ++ [h x b]) ++ map (h x) fs)
    by (intros x; rewrite <- app_assoc; reflexivity).
  replace (pre ++ lab b :: map lab fs ++ post)
    with ((pre ++ [lab b]) ++ map lab fs ++ post)
    by (rewrite <- app_assoc; reflexivity).
  rewrite IH.
  - f_equal. apply frame_ext. intros x. rewrite <- app_assoc. reflexivity.
  - intros x. rewrite !length_app, Hp. reflexivity.
  - intros x. rewrite length_app, Hpa. simpl. lia.
  - exact Hnd'.
  - intros c Hc Hin. apply in_app_or in Hin as [Hin|[Heq|[]]].
    + apply (Hpre c); auto. now right.
    + apply Hb. rewrite Heq. now apply in_map.
  - intros c Hc. apply Hpost. now right.
Qed.

End Frames.

(** ** The resolver, step by step *)

Lemma round53_exact (z : Z) :
  (Z.abs z <= 2 ^ 53)%Z -> Pandas.round53 z = z.
Proof.
  intros H. unfold Pandas.round53.
  destruct (Z.ltb_spec (Z.abs z) (2 ^ 53)) as [_|Hge]; [reflexivity|].
  assert (Hz : z = (2 ^ 53)%Z \/ z = (- 2 ^ 53)%Z) by lia.
  destruct Hz as [-> | ->]; reflexivity.
Qed.

(** Where [mask_of] is defined, the three steps of line 97 give it. *)
Lemma mask_of_normalize (c : cell) (m : Z) :
  mask_of c = Some m -> normalize c = inr (Int m).
Proof.
  unfold normalize. destruct c as [|s|z|s|b]; cbn [mask_of Pandas.fillna0].
  - intros H. injection H as <-. reflexivity.
  - cbn [Pandas.replace_dash0]. destruct (String.eqb s "-").
    + intros H. injection H as <-. reflexivity.
    + cbn [Pandas.astype_int]. destruct (Text.python_int s) as [z|]; [|discriminate].
      destruct (Pandas.int64 z); [|discriminate].
      intros H. injection H as <-. reflexivity.
  - intros H. injection H as <-. reflexivity.
  - cbn [Pandas.replace_dash0 Pandas.astype_int].
    destruct (Pandas.int_literal s) as [z|] eqn:Hs; [|discriminate].
    destruct (Z.leb_spec (Z.abs z) (2 ^ 53)) as [Hle|]; [|discriminate].
    intros H. injection H as <-. rewrite (round53_exact z Hle).
    unfold Pandas.int_literal in Hs.
    destruct (Text.parse_int _) as [z'|]; [|discriminate].
    destruct (Pandas.int64 z') eqn:H64; [|discriminate].
    injection Hs as ->. now rewrite H64.
  - discriminate.
Qed.

Lemma normalize_column (jm : nat) (rs : list (list cell)) (vms : list VM) :
  Forall2 (fun r vm => mask_of (nth jm r NaN) = Some (usage_mask vm)) rs vms ->
  mapR Pandas.astype_int
       (map Pandas.replace_dash0 (map Pandas.fillna0 (map (fun r => nth jm r NaN) rs)))
  = inr (map (fun vm => Int (usage_mask vm)) vms).
Proof.
  induction 1 as [|r vm rs vms Hr _ IH]; simpl; [reflexivity|].
  apply mask_of_normalize in Hr. unfold normalize in Hr. now rewrite Hr, IH.
Qed.

Lemma base_rows (jn jm : nat) (rs : list (list cell)) (vms : list VM) :
  jn <> jm ->
  Forall (fun r => jm < List.length r) rs ->
  Forall2 (fun r vm => nth jn r NaN = vm_name vm) rs vms ->
  map (fun r => [nth jn r NaN; nth jm r NaN])
      (Pandas.map2 (fun r x => Pandas.set_nth jm x r) rs
                   (map (fun vm => Int (usage_mask vm)) vms))
  = map base_row vms.
Proof.
  intros Hne Hlen H. unfold Pandas.map2.
  induction H as [|r vm rs vms Hr _ IH]; simpl; [reflexivity|].
  inversion Hlen as [|? ? Hj Hlen']; subst.
  simpl in IH. rewrite IH by assumption. unfold base_row.
  now rewrite nth_set_nth_other, nth_set_nth_same, Hr by auto.
Qed.

(** Lines 97 and 100 of the script: the mask column is normalised and the
    two columns [Name] and [NsxFInt] are kept. *)
Lemma resolve_base {B : Type} (vmh_df : DataFrame) (vms : list VM)
  (k : DataFrame -> result B) :
  rectangular vmh_df -> report_rows vmh_df vms ->
  (raw <~ Pandas.getitem vmh_df "NsxFInt" ;;
   ints <~ mapR Pandas.astype_int (map Pandas.replace_dash0 (map Pandas.fillna0 raw)) ;;
   vmh_df' <~ Pandas.setitem vmh_df "NsxFInt" ints ;;
   nsxfint_df <~ Pandas.getitems vmh_df' ["Name"; "NsxFInt"] ;;
   k nsxfint_df)
  = k (frame ["Name"; "NsxFInt"] base_row vms).
Proof.
  intros Hrect (jn & jm & Hn & Hm & HF).
  pose proof (positions_index_of _ _ _ Hn) as Hn'.
  pose proof (positions_index_of _ _ _ Hm) as Hm'.
  assert (Hne : jn <> jm).
  { intros ->. apply index_of_some in Hn', Hm'. congruence. }
  unfold Pandas.getitem, Pandas.column_at. rewrite Hm'. cbn [bindR].
  rewrite (normalize_column jm _ vms)
    by (eapply Forall2_impl; [|exact HF]; cbv beta; tauto).
  cbn [bindR]. unfold Pandas.setitem.
  rewrite length_map, <- (Forall2_length HF), Nat.eqb_refl, Hm. cbn [bindR fold_right].
  unfold Pandas.getitems. cbn [mapR columns rows]. rewrite Hn, Hm.
  cbn [bindR map List.concat app fst snd].
  rewrite base_rows; [reflexivity|exact Hne| |].
  - apply index_of_lt in Hm'. unfold rectangular in Hrect.
    eapply Forall_impl; [|exact Hrect]. cbv beta. intros r ->. exact Hm'.
  - eapply Forall2_impl; [|exact HF]. cbv beta. tauto.
Qed.

Lemma getitems_middle {A B : Type} (xs : list A) (lab : B -> string) (g : A -> B -> cell)
  (pre post : list string) (p q : A -> list cell) (fs : list B) :
  (forall x, List.length (p x) = List.length pre) ->
  NoDup (map lab fs) ->
  (forall b, In b fs -> ~ In (lab b) pre) ->
  (forall b, In b fs -> ~ In (lab b) post) ->
  Pandas.getitems
    (frame (pre ++ map lab fs ++ post) (fun x => p x ++ map (g x) fs ++ q x) xs)
    (map lab fs)
  = inr (frame (map lab fs) (fun x => map (g x) fs) xs).
Proof.
  intros Hp Hnd Hpre Hpost.
  rewrite getitems_frame with (js := seq (List.length pre) (List.length (map lab fs))).
  - f_equal. apply frame_ext. intros x.
    rewrite <- (Hp x), length_map, <- (length_map (g x) fs). apply select_middle.
  - apply lookup_middle; [exact Hnd| |];
      intros k Hk; apply in_map_iff in Hk as (b & <- & Hb); auto.
Qed.

Lemma setitems_frame {A B : Type} (xs : list A) (lab : B -> string) (g h : A -> B -> cell)
  (pre post : list string) (p q : A -> list cell) (fs : list B) :
  (forall x, List.length (p x) = List.length pre) ->
  NoDup (map lab fs) ->
  (forall b, In b fs -> ~ In (lab b) pre) ->
  (forall b, In b fs -> ~ In (lab b) post) ->
  Pandas.setitems
    (frame (pre ++ map lab fs ++ post) (fun x => p x ++ map (g x) fs ++ q x) xs)
    (map lab fs)
    (frame (map lab fs) (fun x => map (h x) fs) xs)
  = inr (frame (pre ++ map lab fs ++ post) (fun x => p x ++ map (h x) fs ++ q x) xs).
Proof.
  intros Hp Hnd Hpre Hpost. unfold Pandas.setitems.
  cbn [columns frame]. rewrite Nat.eqb_refl.
  exact (setitems_from_frame xs B lab g h post q (map lab fs) fs pre p (fun _ => []) 0
           Hp (fun _ => eq_refl) Hnd Hpre Hpost).
Qed.

(** The rank of an edition of the fixed list. *)
Lemma index_of_in (k : string) (l : list string) :
  In k l -> exists j, Pandas.index_of k l = Some j.
Proof.
  induction l as [|x l IH]; simpl; intros H; [contradiction|].
  destruct (String.eqb_spec k x) as [->|Hne]; [now exists 0|].
  destruct H as [->|H]; [congruence|].
  destruct (IH H) as [j ->]. now exists (S j).
Qed.

Lemma editions_index_rank (f : Feature) :
  In (edition f) editions ->
  editions_index (Str (edition f)) = inr (Int (Spec.rank f)).
Proof.
  intros H. unfold editions_index, Spec.rank.
  destruct (index_of_in _ _ H) as [j ->]. reflexivity.
Qed.

Lemma rank_bounds (f : Feature) : (0 <= Spec.rank f < 5)%Z.
Proof.
  unfold Spec.rank. destruct (Pandas.index_of (edition f) editions) as [j|] eqn:H; [|lia].
  apply index_of_lt in H. simpl in H. lia.
Qed.

Lemma contributed_bounds (vm : VM) (f : Feature) : (0 <= Spec.contributed vm f < 5)%Z.
Proof.
  unfold Spec.contributed. pose proof (rank_bounds f).
  destruct (Spec.active vm f); lia.
Qed.

Lemma resolved_rank_bounds (vm : VM) (feats : list Feature) :
  (0 <= Spec.resolved_rank vm feats < 5)%Z.
Proof.
  induction feats as [|f feats IH]; simpl; [lia|].
  pose proof (contributed_bounds vm f). lia.
Qed.

Lemma row_max_contributed (vm : VM) (feats : list Feature) :
  feats <> [] ->
  Pandas.row_max (map (contributed_cell vm) feats)
  = inr (Int (Spec.resolved_rank vm feats)).
Proof.
  intros Hne. unfold Pandas.row_max.
  rewrite mapR_map with (h := Spec.contributed vm) by reflexivity.
  destruct feats as [|f feats]; [congruence|]. cbn [map]. do 2 f_equal.
  assert (Hgen : forall z, (0 <= z)%Z ->
            fold_left Z.max (map (Spec.contributed vm) feats) z
            = Z.max z (Spec.resolved_rank vm feats)).
  { clear. induction feats as [|g feats IH]; intros z Hz; simpl; [lia|].
    pose proof (contributed_bounds vm g).
    rewrite IH by lia. lia. }
  rewrite Hgen by apply contributed_bounds. reflexivity.
Qed.

Section Resolver.

Variable vms : list VM.

Lemma add_feature_ranked (cols : list string) (row : list cell) (f : Feature)
  (done : list Feature) (jn jb je : nat) :
  Pandas.index_of "NSX Feature Name" cols = Some jn ->
  Pandas.index_of "NSXFINT" cols = Some jb ->
  Pandas.index_of "Edition" cols = Some je ->
  nth jn row NaN = Str (feature_name f) ->
  nth jb row NaN = Int (bit_value f) ->
  nth je row NaN = Str (edition f) ->
  In (edition f) editions ->
  ~ In (feature_name f) (["Name"; "NsxFInt"] ++ map feature_name done) ->
  add_feature cols (ranked vms done) row = inr (ranked vms (done ++ [f])).
Proof.
  intros Hjn Hjb Hje Hn Hb He Hed Hfresh.
  unfold add_feature, ranked.
  rewrite getitem_frame with (j := 1) by reflexivity. cbn [bindR].
  unfold row_get. rewrite Hjb, Hje, Hjn, Hn, He, Hb. cbn [bindR].
  unfold Pandas.and_positive. cbn [Pandas.to_int].
  rewrite mapR_map with (h := fun vm => Spec.active vm f) by reflexivity.
  cbn [bindR]. rewrite (editions_index_rank f Hed). cbn [bindR label].
  unfold Pandas.where_. rewrite map_map.
  rewrite map_ext with (g := fun vm => contributed_cell vm f)
    by (intros vm; unfold contributed_cell, Spec.contributed;
        destruct (Spec.active vm f); reflexivity).
  rewrite setitem_frame_new by exact Hfresh.
  rewrite map_app, app_assoc. f_equal. apply frame_ext.
  intros vm. rewrite map_app, app_assoc. reflexivity.
Qed.

Lemma add_features_ranked (cols : list string) (jn jb je : nat) :
  Pandas.index_of "NSX Feature Name" cols = Some jn ->
  Pandas.index_of "NSXFINT" cols = Some jb ->
  Pandas.index_of "Edition" cols = Some je ->
  forall (rs : list (list cell)) (feats : list Feature),
    Forall2 (fun r f =>
               nth jn r NaN = Str (feature_name f) /\
               nth jb r NaN = Int (bit_value f) /\
               nth je r NaN = Str (edition f)) rs feats ->
    forall done : list Feature,
      Forall (fun f => In (edition f) editions) feats ->
      NoDup (map feature_name (done ++ feats)) ->
      Forall (fun f => ~ In (feature_name f) reserved) feats ->
      add_features cols (ranked vms done) rs = inr (ranked vms (done ++ feats)).
Proof.
  intros Hjn Hjb Hje rs feats HF.
  induction HF as [|r f rs feats (Hn & Hb & He) _ IH]; intros done Hed Hnd Hfr.
  - rewrite app_nil_r. reflexivity.
  - inversion Hed as [|? ? Hedf Hed']; subst.
    inversion Hfr as [|? ? Hfrf Hfr']; subst.
    cbn [add_features].
    assert (Hfresh : ~ In (feature_name f) (["Name"; "NsxFInt"] ++ map feature_name done)).
    { rewrite map_app in Hnd. apply NoDup_remove_2 in Hnd.
      intros [H|[H|H]].
      - apply Hfrf. left. exact H.
      - apply Hfrf. right. left. exact H.
      - apply Hnd, in_or_app. left. exact H. }
    rewrite (add_feature_ranked cols r f done jn jb je) by assumption.
    cbn [bindR]. rewrite (IH (done ++ [f])), <- app_assoc; auto.
    rewrite <- app_assoc. exact Hnd.
Qed.

End Resolver.

Lemma feature_names_catalog (nsxf_df : DataFrame) (feats : list Feature) :
  catalog_rows nsxf_df feats ->
  feature_names nsxf_df = inr (map feature_name feats).
Proof.
  intros (jn & jb & je & Hjn & _ & _ & HF).
  unfold feature_names, Pandas.getitem, Pandas.column_at. rewrite Hjn. cbn [bindR].
  induction HF as [|r f rs feats (Hn & _) _ IH]; simpl; [reflexivity|].
  now rewrite Hn, IH.
Qed.

Lemma editions_at_rank (z : Z) :
  (0 <= z < 5)%Z -> editions_at (Int z) = inr (Str (Spec.edition_name z)).
Proof.
  intros H. unfold editions_at.
  replace (Z.leb 0 z && Z.ltb z 5)%Z with true; [reflexivity|].
  symmetry. apply andb_true_iff. split; [apply Z.leb_le|apply Z.ltb_lt]; lia.
Qed.

(** A row with a text keeps its cells in [iterrows]. *)
Lemma iterrows_text (df : DataFrame) :
  Forall (fun r => exists j s, nth j r NaN = Str s) (rows df) ->
  Pandas.iterrows df = rows df.
Proof.
  unfold Pandas.iterrows. intros H.
  induction H as [|r rs (j & s & Hj) _ IH]; simpl; [reflexivity|].
  rewrite IH. f_equal.
  replace (forallb _ r) with false; [reflexivity|].
  symmetry. apply not_true_is_false. intros Hall.
  rewrite forallb_forall in Hall.
  assert (Hin : In (Str s) r).
  { rewrite <- Hj. apply nth_In.
    destruct (Nat.lt_ge_cases j (List.length r)) as [Hlt|Hge]; [exact Hlt|].
    rewrite nth_overflow in Hj by exact Hge. discriminate. }
  specialize (Hall _ Hin). discriminate.
Qed.

Lemma iterrows_catalog (nsxf_df : DataFrame) (feats : list Feature) :
  catalog_rows nsxf_df feats -> Pandas.iterrows nsxf_df = rows nsxf_df.
Proof.
  intros (jn & jb & je & _ & _ & _ & HF). apply iterrows_text.
  induction HF as [|r f rs feats (Hn & _) _ IH]; constructor; [|exact IH].
  now exists jn, (feature_name f).
Qed.

Lemma fresh_not_reserved (feats : list Feature) (k : string) :
  Forall (fun f => ~ In (feature_name f) reserved) feats ->
  In k reserved -> ~ In k (map feature_name feats).
Proof.
  intros Hfr Hk Hin. apply in_map_iff in Hin as (b & Hb & Hin).
  rewrite Forall_forall in Hfr. apply (Hfr b Hin). now rewrite Hb.
Qed.

(** On a rectangular report and a valid catalog the resolver returns,
    unless the catalog is empty and the report is not, and what it returns
    is the table [resolved]. *)
Lemma resolve_resolved (vmh_df nsxf_df : DataFrame) (vms : list VM) (feats : list Feature) :
  rectangular vmh_df ->
  report_rows vmh_df vms ->
  catalog_rows nsxf_df feats ->
  valid_catalog feats ->
  feats <> [] \/ vms = [] ->
  resolve vmh_df nsxf_df = inr (resolved feats vms).
Proof.
  intros Hrect Hrep Hcat [Hed Hnd Hfr] Hne.
  unfold resolve. rewrite (resolve_base vmh_df vms _ Hrect Hrep).
  rewrite (iterrows_catalog _ _ Hcat).
  pose proof Hcat as (jn & jb & je & Hjn & Hjb & Hje & HF).
  change (frame ["Name"; "NsxFInt"] base_row vms) with
    (frame (["Name"; "NsxFInt"] ++ map feature_name [])
           (fun vm => base_row vm ++ map (contributed_cell vm) []) vms) at 1.
  fold (ranked vms []).
  rewrite (add_features_ranked vms (columns nsxf_df) jn jb je Hjn Hjb Hje
             (rows nsxf_df) feats HF [] Hed Hnd Hfr).
  cbn [bindR app]. rewrite (feature_names_catalog _ _ Hcat). cbn [bindR].
  assert (Hfresh : forall b, In b feats -> ~ In (feature_name b) ["Name"; "NsxFInt"]).
  { intros b Hb [H|[H|[]]]; rewrite Forall_forall in Hfr;
      apply (Hfr b Hb); [left|right; left]; exact H. }
  assert (Hlast : forall b, In b feats -> ~ In (feature_name b) ["NSX Edition"]).
  { intros b Hb [H|[]]; rewrite Forall_forall in Hfr;
      apply (Hfr b Hb); right; right; left; exact H. }
  assert (Hnone : forall b : Feature, In b feats -> ~ In (feature_name b) [])
    by (intros b _ []).
  assert (Hed_fresh : ~ In "NSX Edition" (["Name"; "NsxFInt"] ++ map feature_name feats)).
  { intros [H|[H|H]]; try discriminate.
    apply (fresh_not_reserved feats "NSX Edition" Hfr); [|exact H].
    right. right. now left. }
  assert (Hlen : forall vm : VM, List.length (base_row vm) = List.length ["Name"; "NsxFInt"])
    by reflexivity.
  (* the row maximum *)
  unfold ranked.
  rewrite <- (app_nil_r (map feature_name feats)) at 1.
  rewrite frame_ext with (g := fun vm => base_row vm ++ map (contributed_cell vm) feats ++ [])
    by (intros vm; now rewrite app_nil_r).
  rewrite (getitems_middle vms feature_name contributed_cell ["Name"; "NsxFInt"] []
             base_row (fun _ => []) feats Hlen Hnd Hfresh Hnone).
  cbn [bindR].
  rewrite max_axis1_frame with (g := fun vm => Int (Spec.resolved_rank vm feats))
    by (intros vm Hvm; apply row_max_contributed;
        destruct Hne as [H| ->]; [exact H|contradiction]).
  cbn [bindR].
  rewrite setitem_frame_new by exact Hed_fresh.
  cbn [bindR].
  (* the markers *)
  rewrite <- app_assoc.
  rewrite frame_ext with
    (g := fun vm => base_row vm ++ map (contributed_cell vm) feats
                      ++ [Int (Spec.resolved_rank vm feats)])
    by (intros vm; now rewrite <- app_assoc).
  rewrite (getitems_middle vms feature_name contributed_cell ["Name"; "NsxFInt"]
             ["NSX Edition"] base_row
             (fun vm => [Int (Spec.resolved_rank vm feats)]) feats Hlen Hnd Hfresh Hlast).
  cbn [bindR].
  rewrite frame_ext with (g := fun vm => map Int (map (Spec.contributed vm) feats))
    by (intros vm; now rewrite map_map).
  rewrite where_positive_frame. cbn [bindR].
  rewrite frame_ext with (f := fun vm => map _ (map (Spec.contributed vm) feats))
                         (g := fun vm => map (marker vm) feats)
    by (intros vm; now rewrite map_map).
  rewrite (setitems_frame vms feature_name contributed_cell marker ["Name"; "NsxFInt"]
             ["NSX Edition"] base_row
             (fun vm => [Int (Spec.resolved_rank vm feats)]) feats Hlen Hnd Hfresh Hlast).
  cbn [bindR].
  (* the edition name *)
  assert (Hpos : Pandas.positions "NSX Edition" 0
                   (["Name"; "NsxFInt"] ++ map feature_name feats ++ ["NSX Edition"])
                 = [List.length (["Name"; "NsxFInt"] ++ map feature_name feats)]).
  { rewrite app_assoc. apply (positions_app _ _ [] 0); [exact Hed_fresh|intros []]. }
  pose proof (positions_index_of _ _ _ Hpos) as Hidx.
  assert (Hrow : forall vm c,
             base_row vm ++ map (marker vm) feats ++ [c]
             = (base_row vm ++ map (marker vm) feats) ++ [c])
    by (intros; now rewrite app_assoc).
  assert (Hrlen : forall vm,
             List.length (base_row vm ++ map (marker vm) feats)
             = List.length (["Name"; "NsxFInt"] ++ map feature_name feats))
    by (intros; now rewrite !length_app, !length_map).
  rewrite (getitem_frame vms _ _ _ _ Hidx). cbn [bindR].
  rewrite map_ext with (g := fun vm => Int (Spec.resolved_rank vm feats))
    by (intros vm; rewrite Hrow, <- (Hrlen vm); apply nth_app_here).
  rewrite mapR_map with (h := fun vm => Str (Spec.edition_name (Spec.resolved_rank vm feats)))
    by (intros vm _; apply editions_at_rank, resolved_rank_bounds).
  cbn [bindR].
  rewrite (setitem_frame_old vms _ _ _ _ _ Hpos).
  unfold resolved. f_equal. apply frame_ext. intros vm.
  rewrite Hrow, <- (Hrlen vm), set_nth_app. unfold resolved_row.
  now rewrite <- app_assoc.
Qed.

(** ** What [read_csv] and [dropna] guarantee *)

Lemma nth_in_or_default {A : Type} (l : list A) (d : A) (i : nat) :
  nth i l d = d \/ In (nth i l d) l.
Proof.
  destruct (Nat.lt_ge_cases i (List.length l)) as [Hlt|Hge].
  - right. now apply nth_In.
  - left. now apply nth_overflow.
Qed.

(** A text cell of a typed column is a field of the column, and not one
    of the fields read as missing. *)
Lemma typed_text (fields : list string) (s : string) :
  In (Str s) (Pandas.typed fields) -> In s fields /\ Pandas.is_na s = false.
Proof.
  unfold Pandas.typed.
  destruct (_ && _).
  { intros H. apply in_map_iff in H as (x & Hx & _).
    destruct (Pandas.int_literal x); discriminate. }
  destruct (forallb Pandas.number_like _).
  { intros H. apply in_map_iff in H as (x & Hx & _).
    destruct (Pandas.is_na x); discriminate. }
  destruct (forallb Pandas.bool_like _).
  { intros H. apply in_map_iff in H as (x & Hx & _).
    destruct (Pandas.is_na x); discriminate. }
  intros H. apply in_map_iff in H as (x & Hx & Hin).
  unfold Pandas.read_cell in Hx. destruct (Pandas.is_na x) eqn:Hna; [discriminate|].
  injection Hx as <-. now split.
Qed.

Lemma convert_rows (n : nat) (rs : list (list string)) :
  Forall (fun r => List.length r = n /\
                   Forall (fun c => forall s, c = Str s -> Pandas.is_na s = false) r)
         (Pandas.convert n rs).
Proof.
  unfold Pandas.convert. apply Forall_forall. intros r Hr.
  apply in_map_iff in Hr as (i & <- & _). split.
  - now rewrite !length_map, length_seq.
  - apply Forall_forall. intros c Hc s ->.
    apply in_map_iff in Hc as (col & Hc & Hcol).
    apply in_map_iff in Hcol as (j & <- & _).
    destruct (nth_in_or_default (Pandas.typed (map (fun r => nth j r "") rs)) NaN i)
      as [Hd|Hin]; [congruence|].
    rewrite Hc in Hin. now apply typed_text in Hin.
Qed.

Lemma read_csv_rows (text : string) (sep : ascii) (skip : list nat) (df : DataFrame) :
  Pandas.read_csv text sep skip = inr df ->
  Forall (fun r => List.length r = List.length (columns df) /\
                   Forall (fun c => forall s, c = Str s -> Pandas.is_na s = false) r)
         (rows df).
Proof.
  unfold Pandas.read_csv.
  destruct (Pandas.fields text sep skip) as [e|[cols rs]]; [discriminate|].
  intros H. injection H as <-. cbn [columns rows]. apply convert_rows.
Qed.

Lemma read_csv_rectangular (text : string) (sep : ascii) (skip : list nat) (df : DataFrame) :
  Pandas.read_csv text sep skip = inr df -> rectangular df.
Proof.
  intros H. apply read_csv_rows in H. unfold rectangular.
  eapply Forall_impl; [|exact H]. cbv beta. tauto.
Qed.

Lemma rename_rectangular (old new : string) (df : DataFrame) :
  rectangular df -> rectangular (Pandas.rename old new df).
Proof.
  unfold rectangular, Pandas.rename. simpl. now rewrite length_map.
Qed.

Lemma loads_rectangular (args : Args) (fs : FileSystem) (vmh_df nsxf_df : DataFrame) :
  loads args fs vmh_df nsxf_df -> rectangular vmh_df.
Proof.
  intros (text & vmh0 & ftext & nsxf0 & _ & _ & Hread & -> & _).
  apply rename_rectangular. eapply read_csv_rectangular, Hread.
Qed.

(** After [dropna] a text cell of the catalog is never the empty text: an
    empty field was read as missing and its row dropped. *)
Lemma loads_catalog_text (args : Args) (fs : FileSystem) (vmh_df nsxf_df : DataFrame)
  (r : list cell) (j : nat) (s : string) :
  loads args fs vmh_df nsxf_df ->
  In r (rows nsxf_df) -> nth j r NaN = Str s -> s <> "".
Proof.
  intros (text & vmh0 & ftext & nsxf0 & _ & _ & _ & _ & _ & Hread & ->) Hr Hs.
  apply read_csv_rows in Hread. rewrite Forall_forall in Hread.
  unfold Pandas.dropna in Hr. simpl in Hr. apply filter_In in Hr as [Hr _].
  destruct (Hread r Hr) as [_ Hcells]. rewrite Forall_forall in Hcells.
  destruct (nth_in_or_default r NaN j) as [Hd|Hin]; [congruence|].
  specialize (Hcells _ Hin s Hs). intros ->. discriminate.
Qed.

Lemma Forall2_in_r {A B : Type} (P : A -> B -> Prop) (l : list A) (l' : list B) (y : B) :
  Forall2 P l l' -> In y l' -> exists x, In x l /\ P x y.
Proof.
  induction 1 as [|a b l l' Hab _ IH]; intros Hy; [contradiction|].
  destruct Hy as [<-|Hy].
  - exists a. split; [now left|exact Hab].
  - destruct (IH Hy) as (x & Hx & Hp). exists x. split; [now right|exact Hp].
Qed.

Lemma Forall2_nth_error {A B : Type} (P : A -> B -> Prop) (l : list A) (l' : list B)
  (i : nat) (x : A) (y : B) :
  Forall2 P l l' -> nth_error l i = Some x -> nth_error l' i = Some y -> P x y.
Proof.
  intros H. revert i. induction H as [|a b l l' Hab _ IH]; intros i Hx Hy.
  - destruct i; discriminate.
  - destruct i; simpl in *; [congruence|eauto].
Qed.

Lemma catalog_rank_positive (args : Args) (fs : FileSystem) (vmh_df nsxf_df : DataFrame)
  (feats : list Feature) :
  loads args fs vmh_df nsxf_df ->
  catalog_rows nsxf_df feats ->
  Forall (fun f => In (edition f) editions) feats ->
  Forall (fun f => (0 < Spec.rank f)%Z) feats.
Proof.
  intros Hl (jn & jb & je & _ & _ & _ & HF) Hed.
  rewrite Forall_forall in *. intros f Hf.
  destruct (Forall2_in_r _ _ _ f HF Hf) as (r & Hr & _ & _ & He).
  pose proof (loads_catalog_text _ _ _ _ r je (edition f) Hl Hr He) as Hne.
  specialize (Hed f Hf). unfold Spec.rank.
  destruct Hed as [H|[H|[H|[H|[H|[]]]]]]; rewrite <- H in *;
    [congruence| | | |]; cbn; lia.
Qed.

(** ** The table a well-formed run writes *)

Lemma catalog_rows_nil (nsxf_df : DataFrame) :
  catalog_rows nsxf_df [] ->
  rows nsxf_df = [] /\ In "NSX Feature Name" (columns nsxf_df).
Proof.
  intros (jn & jb & je & Hjn & _ & _ & HF). split; [now inversion HF|].
  apply index_of_some, nth_error_In in Hjn. exact Hjn.
Qed.

(** With no feature left in the catalog the selection of feature columns
    is a table without columns, its row maximum is [NaN] in every row, and
    [editions[x]] raises on the first row. *)
Lemma resolve_empty_catalog (vmh_df nsxf_df : DataFrame) (vms : list VM) :
  rectangular vmh_df ->
  report_rows vmh_df vms ->
  rows nsxf_df = [] ->
  In "NSX Feature Name" (columns nsxf_df) ->
  resolve vmh_df nsxf_df
  = match vms with
    | [] => inr (mkDF ["Name"; "NsxFInt"; "NSX Edition"] [])
    | _ :: _ => inl (TypeError "list indices must be integers or slices")
    end.
Proof.
  intros Hrect Hrep Hrows Hcol.
  destruct (index_of_in _ _ Hcol) as [j Hj].
  unfold resolve. rewrite (resolve_base vmh_df vms _ Hrect Hrep).
  unfold Pandas.iterrows. rewrite Hrows. cbn [map add_features bindR].
  unfold feature_names, Pandas.getitem at 1, Pandas.column_at.
  rewrite Hj, Hrows. cbn [map mapR bindR].
  rewrite (getitems_frame vms _ _ [] []) by constructor. cbn [bindR map].
  rewrite max_axis1_frame with (g := fun _ => NaN) by reflexivity. cbn [bindR].
  rewrite setitem_frame_new by (simpl; intuition discriminate). cbn [bindR app].
  rewrite (getitems_frame vms _ _ [] []) by constructor. cbn [bindR map].
  replace (Pandas.where_positive (frame [] (fun _ : VM => []) vms))
    with (inr (frame [] (fun _ : VM => @nil cell) vms) : result DataFrame)
    by (unfold Pandas.where_positive, frame; cbn [rows columns];
        now rewrite mapR_map with (h := fun _ : VM => @nil cell)).
  cbn [bindR]. unfold Pandas.setitems. cbn [columns frame List.length Nat.eqb].
  cbn [Pandas.setitems_from bindR].
  rewrite getitem_frame with (j := 2) by reflexivity. cbn [bindR].
  destruct vms as [|vm vms']; reflexivity.
Qed.

(** A loaded run with a valid catalog writes the table [resolved], unless
    the catalog is empty and the report is not. *)
Lemma run_resolved (args : Args) (fs : FileSystem) (vms : list VM) (feats : list Feature) :
  loaded args fs vms feats ->
  valid_catalog feats ->
  feats <> [] \/ vms = [] ->
  outfile (fst (run args fs)) = Some (output args, resolved feats vms) /\
  snd (run args fs) = 0%Z.
Proof.
  intros (vmh_df & nsxf_df & _ & Hl & Hrep & Hcat) Hv Hne.
  destruct (run_loads _ _ _ _ Hl) as [Ho Hs].
  rewrite (resolve_resolved vmh_df nsxf_df vms feats
             (loads_rectangular _ _ _ _ Hl) Hrep Hcat Hv Hne) in Ho, Hs.
  split; assumption.
Qed.

(** With an empty catalog and a VM record it writes nothing. *)
Lemma run_unresolved (args : Args) (fs : FileSystem) (vms : list VM) :
  loaded args fs vms [] ->
  vms <> [] ->
  snd (main args fs start)
  = inl (Uncaught (TypeError "list indices must be integers or slices")) /\
  outfile (fst (run args fs)) = None /\
  snd (run args fs) = 1%Z.
Proof.
  intros (vmh_df & nsxf_df & _ & Hl & Hrep & Hcat) Hvms.
  destruct (catalog_rows_nil _ Hcat) as [Hrows Hcol].
  destruct (run_loads _ _ _ _ Hl) as [Ho Hs].
  destruct (main_loads _ _ _ _ Hl) as [_ Hm].
  rewrite (resolve_empty_catalog vmh_df nsxf_df vms
             (loads_rectangular _ _ _ _ Hl) Hrep Hrows Hcol) in Ho, Hs, Hm.
  destruct vms as [|vm vms']; [congruence|]. repeat split; assumption.
Qed.

Lemma loaded_rank_positive (args : Args) (fs : FileSystem) (vms : list VM)
  (feats : list Feature) :
  loaded args fs vms feats ->
  valid_catalog feats ->
  Forall (fun f => (0 < Spec.rank f)%Z) feats.
Proof.
  intros (vmh_df & nsxf_df & _ & Hl & _ & Hcat) Hv.
  exact (catalog_rank_positive _ _ _ _ _ Hl Hcat (valid_editions _ Hv)).
Qed.

Lemma resolved_nth (feats : list Feature) (vms : list VM) (i : nat) (vm : VM) :
  nth_error vms i = Some vm ->
  nth_error (rows (resolved feats vms)) i = Some (resolved_row feats vm).
Proof.
  intros H. unfold resolved, frame. simpl. now apply map_nth_error.
Qed.

Lemma resolved_mask (feats : list Feature) (vms : list VM) (vm : VM) :
  row_get (columns (resolved feats vms)) (resolved_row feats vm) "NsxFInt"
  = inr (Int (usage_mask vm)).
Proof. reflexivity. Qed.

Lemma resolved_name (feats : list Feature) (vms : list VM) (vm : VM) :
  row_get (columns (resolved feats vms)) (resolved_row feats vm) "Name"
  = inr (vm_name vm).
Proof. reflexivity. Qed.

Lemma fresh_not_base (feats : list Feature) (f : Feature) :
  Forall (fun f => ~ In (feature_name f) reserved) feats ->
  In f feats -> ~ In (feature_name f) ["Name"; "NsxFInt"].
Proof.
  intros Hfr Hf [H|[H|[]]]; rewrite Forall_forall in Hfr;
    apply (Hfr f Hf); [left|right; left]; exact H.
Qed.

Lemma resolved_feature (feats : list Feature) (vms : list VM) (vm : VM) (f : Feature) :
  valid_catalog feats -> In f feats ->
  row_get (columns (resolved feats vms)) (resolved_row feats vm) (feature_name f)
  = inr (marker vm f).
Proof.
  intros [_ Hnd Hfr] Hf.
  destruct (in_split _ _ Hf) as (l1 & l2 & ->).
  unfold row_get, resolved, resolved_row, frame. cbn [columns].
  rewrite !map_app in *. cbn [map] in *.
  replace (["Name"; "NsxFInt"] ++ (map feature_name l1 ++ feature_name f :: map feature_name l2)
             ++ ["NSX Edition"])
    with ((["Name"; "NsxFInt"] ++ map feature_name l1)
            ++ feature_name f :: (map feature_name l2 ++ ["NSX Edition"]))
    by (now rewrite <- !app_assoc).
  rewrite index_of_app.
  - replace (base_row vm ++ (map (marker vm) l1 ++ marker vm f :: map (marker vm) l2) ++
               [Str (Spec.edition_name (Spec.resolved_rank vm (l1 ++ f :: l2)))])
      with ((base_row vm ++ map (marker vm) l1)
              ++ marker vm f :: (map (marker vm) l2 ++
                 [Str (Spec.edition_name (Spec.resolved_rank vm (l1 ++ f :: l2)))]))
      by (now rewrite <- !app_assoc).
    replace (List.length (["Name"; "NsxFInt"] ++ map feature_name l1))
      with (List.length (base_row vm ++ map (marker vm) l1))
      by (now rewrite !length_app, !length_map).
    now rewrite nth_app_here.
  - intros Hin. apply in_app_or in Hin as [Hin|Hin].
    + exact (fresh_not_base _ f Hfr Hf Hin).
    + apply NoDup_remove_2 in Hnd. apply Hnd, in_or_app. now left.
Qed.

Lemma resolved_edition (feats : list Feature) (vms : list VM) (vm : VM) :
  valid_catalog feats ->
  row_get (columns (resolved feats vms)) (resolved_row feats vm) "NSX Edition"
  = inr (Str (Spec.edition_name (Spec.resolved_rank vm feats))).
Proof.
  intros [_ _ Hfr].
  unfold row_get, resolved, resolved_row, frame. cbn [columns].
  rewrite !app_assoc. rewrite index_of_app.
  - replace (List.length (["Name"; "NsxFInt"] ++ map feature_name feats))
      with (List.length (base_row vm ++ map (marker vm) feats))
      by (now rewrite !length_app, !length_map).
    now rewrite nth_app_here.
  - intros [H|[H|H]]; try discriminate.
    apply (fresh_not_reserved feats "NSX Edition" Hfr); [|exact H].
    right. right. now left.
Qed.

(** The largest contributed rank is a contributed rank or 0, and no
    contributed rank exceeds it. *)
Lemma resolved_rank_upper (vm : VM) (feats : list Feature) (f : Feature) :
  In f feats -> (Spec.contributed vm f <= Spec.resolved_rank vm feats)%Z.
Proof.
  induction feats as [|g feats IH]; simpl; intros H; [contradiction|].
  destruct H as [->|H]; [lia|]. specialize (IH H). lia.
Qed.

Lemma resolved_rank_attained (vm : VM) (feats : list Feature) :
  Spec.resolved_rank vm feats = 0%Z \/
  exists f, In f feats /\ Spec.contributed vm f = Spec.resolved_rank vm feats.
Proof.
  induction feats as [|g feats IH]; simpl; [now left|].
  destruct (Z.max_spec (Spec.contributed vm g) (Spec.resolved_rank vm feats))
    as [[_ ->]|[_ ->]].
  - destruct IH as [H|(f & Hf & H)]; [now left|].
    right. exists f. split; [now right|exact H].
  - right. exists g. split; [now left|reflexivity].
Qed.

Lemma resolved_rank_permutation (vm : VM) (feats feats' : list Feature) :
  Permutation feats feats' ->
  Spec.resolved_rank vm feats' = Spec.resolved_rank vm feats.
Proof.
  induction 1; simpl; lia.
Qed.

(** A feature of a loaded catalog is marked exactly when it is active:
    its edition has a positive rank. *)
Lemma marker_active (vm : VM) (f : Feature) :
  (0 < Spec.rank f)%Z ->
  marker vm f = if Z.ltb 0 (Z.land (usage_mask vm) (bit_value f)) then Str "True" else Str "".
Proof.
  intros H. unfold marker, Spec.contributed, Spec.active.
  destruct (Z.ltb 0 (Z.land (usage_mask vm) (bit_value f))); [|reflexivity].
  apply Z.ltb_lt in H. now rewrite H.
Qed.

(** The scenarios of the specification, run. *)
Example scenario_1_2 :
  run default_args (Demo.files Demo.report1 Demo.catalog1)
  = (mkWorld ["INFO: Reading input file vmh.tsv...";
              "INFO: Determining rows to skip...";
              "INFO: Rows to skip: []";
              "INFO: Reading NSX Features..."]
       (Some ("nsxfint.csv",
              mkDF ["Name"; "NsxFInt"; "Micro-segmentation"; "NSX Edition"]
                   [[Str "vm1"; Int 4; Str "True"; Str "Advanced"];
                    [Str "vm2"; Int 0; Str ""; Str ""]])),
     0%Z).
Proof. vm_compute. reflexivity. Qed.

Example scenario_3_4 :
  outfile (fst (run default_args (Demo.files Demo.report Demo.catalog)))
  = Some ("nsxfint.csv",
          mkDF ["Name"; "NsxFInt"; "Switching"; "Routing"; "NSX Edition"]
               [[Str "vm1"; Int 3; Str "True"; Str "True"; Str "Enterprise Plus"];
                [Str "vm2"; Int 0; Str ""; Str ""; Str ""];
                [Str "vm3"; Int 0; Str ""; Str ""; Str ""];
                [Str "vm4"; Int (-5); Str "True"; Str "True"; Str "Enterprise Plus"]]).
Proof. vm_compute. reflexivity. Qed.

Example scenario_5 :
  run (mkArgs "vmh.txt" "nsxfint.csv" false false)
      (fun path => if String.eqb path "vmh.txt" then Some Demo.report else None)
  = (mkWorld ["FATAL: Input file vmh.txt is not CSV or TSV."] None, 1%Z).
Proof. vm_compute. reflexivity. Qed.

Example demo_loaded_ok :
  loaded default_args (Demo.files Demo.report Demo.catalog) Demo.vms Demo.feats.
Proof. demo_loaded. Qed.

Example demo_valid_ok : valid_catalog Demo.feats.
Proof. demo_valid. Qed.

(** ** The resolver: edition and markers *)

Lemma editions_index_at (z : Z) :
  (0 <= z < 5)%Z ->
  editions_index (Str (nth (Z.to_nat z) editions "")) = inr (Int z).
Proof.
  intros H.
  assert (Hz : z = 0%Z \/ z = 1%Z \/ z = 2%Z \/ z = 3%Z \/ z = 4%Z) by lia.
  destruct Hz as [->|[->|[->|[->| ->]]]]; reflexivity.
Qed.

(** With a catalog that keeps a feature (or a report without a VM
    record) the edition written for every VM record is the element of
    the fixed edition list at the largest rank contributed by a catalog
    feature (the rank of its edition when the feature is active, 0
    otherwise), so that the rank of the written edition, its index in
    the list, is that maximum: no feature contributes more, the maximum
    is 0 or is contributed by some feature, and it is the same for every
    order of the catalog. *)
Lemma edition_is_max_rank (args : Args) (fs : FileSystem) (vms : list VM)
  (feats : list Feature) :
  loaded args fs vms feats ->
  valid_catalog feats ->
  feats <> [] \/ vms = [] ->
  exists df,
    outfile (fst (run args fs)) = Some (output args, df) /\
    forall i vm,
      nth_error vms i = Some vm ->
      exists row name,
        nth_error (rows df) i = Some row /\
        row_get (columns df) row "NSX Edition" = inr (Str name) /\
        name = nth (Z.to_nat (Spec.resolved_rank vm feats)) editions "" /\
        editions_index (Str name) = inr (Int (Spec.resolved_rank vm feats)) /\
        (forall f, In f feats ->
                   (Spec.contributed vm f <= Spec.resolved_rank vm feats)%Z) /\
        (Spec.resolved_rank vm feats = 0%Z \/
         exists f, In f feats /\ Spec.contributed vm f = Spec.resolved_rank vm feats) /\
        (forall feats', Permutation feats feats' ->
                        Spec.resolved_rank vm feats' = Spec.resolved_rank vm feats).
Proof.
  intros Hl Hv Hne. destruct (run_resolved _ _ _ _ Hl Hv Hne) as [Ho _].
  exists (resolved feats vms). split; [exact Ho|].
  intros i vm Hi.
  exists (resolved_row feats vm),
         (nth (Z.to_nat (Spec.resolved_rank vm feats)) editions "").
  split; [now apply resolved_nth|].
  split; [now apply resolved_edition|].
  split; [reflexivity|].
  split; [apply editions_index_at, resolved_rank_bounds|].
  split; [intros f; apply resolved_rank_upper|].
  split; [apply resolved_rank_attained|].
  intros feats'. apply resolved_rank_permutation.
Qed.

Example edition_is_max_rank_scenario_3 :
  exists df row,
    outfile (fst (run default_args (Demo.files Demo.report Demo.catalog)))
    = Some ("nsxfint.csv", df) /\
    nth_error (rows df) 0 = Some row /\
    row_get (columns df) row "NSX Edition" = inr (Str "Enterprise Plus").
Proof.
  destruct (edition_is_max_rank default_args (Demo.files Demo.report Demo.catalog)
              Demo.vms Demo.feats) as (df & Ho & Hrows).
  - demo_loaded.
  - demo_valid.
  - left. discriminate.
  - destruct (Hrows 0 (mkVM (Str "vm1") 3) eq_refl) as (row & name & Hr & He & -> & _).
    exists df, row. repeat split; assumption.
Qed.

(** C1.  For every VM record the specification expects the edition of
    the largest rank contributed by a catalog feature, which is rank 0
    and the empty edition when no feature contributes.  With a catalog
    that keeps a feature that is what the script writes
    ([edition_is_max_rank]).  With the catalog whose only row misses its
    edition no feature is left: for the two VM records of the report of
    scenarios 1 and 2 the largest contributed rank is 0, the edition
    expected is the first of the list, the empty one, and the script
    writes no edition at all: the row maximum over no feature column is
    [NaN], [editions[x]] raises, the exit status is 1 and there is no
    file. *)
Theorem edition_without_feature_is_unresolved :
  loaded default_args (Demo.files Demo.report1 Demo.catalog_dropped)
         [mkVM (Str "vm1") 4; mkVM (Str "vm2") 0] [] /\
  Forall (fun vm => Spec.resolved_rank vm [] = 0%Z /\
                    nth_error editions (Z.to_nat (Spec.resolved_rank vm [])) = Some "")
         [mkVM (Str "vm1") 4; mkVM (Str "vm2") 0] /\
  snd (main default_args (Demo.files Demo.report1 Demo.catalog_dropped) start)
  = inl (Uncaught (TypeError "list indices must be integers or slices")) /\
  outfile (fst (run default_args (Demo.files Demo.report1 Demo.catalog_dropped))) = None /\
  snd (run default_args (Demo.files Demo.report1 Demo.catalog_dropped)) = 1%Z.
Proof.
  assert (Hl : loaded default_args (Demo.files Demo.report1 Demo.catalog_dropped)
                      [mkVM (Str "vm1") 4; mkVM (Str "vm2") 0] []).
  { exists (Pandas.rename "#Name" "Name"
              (mkDF ["Name"; "NsxFInt"] [[Str "vm1"; Int 4]; [Str "vm2"; Int 0]])),
           (Pandas.dropna (mkDF ["NSX Feature Name"; "NSXFINT"; "Edition"]
                                [[Str "Micro-segmentation"; Int 4; NaN]])).
    split; [reflexivity|]. split; [|split].
    - exists Demo.report1,
        (mkDF ["Name"; "NsxFInt"] [[Str "vm1"; Int 4]; [Str "vm2"; Int 0]]),
        Demo.catalog_dropped,
        (mkDF ["NSX Feature Name"; "NSXFINT"; "Edition"]
              [[Str "Micro-segmentation"; Int 4; NaN]]).
      repeat split; vm_compute; reflexivity.
    - exists 0, 1. repeat split; repeat constructor.
    - exists 0, 1, 2. repeat split; constructor. }
  split; [exact Hl|].
  split; [repeat constructor|].
  exact (run_unresolved _ _ _ Hl ltac:(discriminate)).
Qed.



Lemma contributed_zero_mask (vm : VM) (f : Feature) :
  usage_mask vm = 0%Z -> Spec.contributed vm f = 0%Z.
Proof.
  intros H. unfold Spec.contributed, Spec.active. rewrite H. reflexivity.
Qed.

Lemma resolved_rank_zero_mask (vm : VM) (feats : list Feature) :
  usage_mask vm = 0%Z -> Spec.resolved_rank vm feats = 0%Z.
Proof.
  intros H. induction feats as [|f feats IH]; simpl; [reflexivity|].
  rewrite IH, (contributed_zero_mask vm f H). reflexivity.
Qed.

Lemma resolved_row_zero_mask (feats : list Feature) (vm : VM) :
  usage_mask vm = 0%Z ->
  resolved_row feats vm = vm_name vm :: Int 0 :: map (fun _ => Str "") feats ++ [Str ""].
Proof.
  intros H. unfold resolved_row, base_row.
  rewrite (resolved_rank_zero_mask vm feats H), H. cbn [app]. do 3 f_equal.
  apply map_ext. intros f. unfold marker.
  now rewrite (contributed_zero_mask vm f H).
Qed.

(** Where a table is written, the row of a VM record whose mask field is
    missing, is the placeholder or is 0 has a blank in every feature
    column and the empty edition. *)
Lemma zero_mask_rows_blank (args : Args) (fs : FileSystem)
  (vmh_df nsxf_df : DataFrame) (vms : list VM) (feats : list Feature) :
  plain_files args fs ->
  loads args fs vmh_df nsxf_df ->
  report_rows vmh_df vms ->
  catalog_rows nsxf_df feats ->
  valid_catalog feats ->
  feats <> [] \/ vms = [] ->
  exists df,
    outfile (fst (run args fs)) = Some (output args, df) /\
    forall i r vm,
      nth_error (rows vmh_df) i = Some r ->
      nth_error vms i = Some vm ->
      row_get (columns vmh_df) r "NsxFInt" = inr NaN \/
      row_get (columns vmh_df) r "NsxFInt" = inr (Str "-") \/
      usage_mask vm = 0%Z ->
      usage_mask vm = 0%Z /\
      nth_error (rows df) i
      = Some (vm_name vm :: Int 0 :: map (fun _ => Str "") feats ++ [Str ""]).
Proof.
  intros Hp Hl Hrep Hcat Hv Hne.
  assert (Hld : loaded args fs vms feats) by (exists vmh_df, nsxf_df; auto).
  destruct (run_resolved _ _ _ _ Hld Hv Hne) as [Ho _].
  exists (resolved feats vms). split; [exact Ho|].
  intros i r vm Hr Hvm Hcase.
  destruct Hrep as (jn & jm & Hn & Hm & HF).
  destruct (Forall2_nth_error _ _ _ i r vm HF Hr Hvm) as (_ & _ & Hmask).
  assert (Hzero : usage_mask vm = 0%Z).
  { unfold row_get in Hcase. rewrite (positions_index_of _ _ _ Hm) in Hcase.
    destruct Hcase as [Hc|[Hc|Hc]]; [| |exact Hc];
      injection Hc as Hc; rewrite Hc in Hmask; cbn in Hmask; congruence. }
  split; [exact Hzero|].
  rewrite (resolved_nth feats vms i vm Hvm).
  now rewrite (resolved_row_zero_mask feats vm Hzero).
Qed.

(** C3.  The report of scenarios 3 and 4 holds a VM record with the
    placeholder and one with a missing mask field: both fields are
    normalised to 0, as the specification says.  With the catalog whose
    only row misses its edition no feature is left, and for these
    records, whose mask is 0, the specification expects a row with the
    empty edition.  The script writes no row: the row maximum over no
    feature column is [NaN], [editions[x]] raises, the exit status is 1
    and there is no file.  With a catalog that keeps a feature the rows
    are as the specification says ([zero_mask_rows_blank]). *)
Theorem zero_mask_without_feature_is_unresolved :
  Pandas.read_csv Demo.report Text.tab (rows_to_skip 0 (Text.readlines Demo.report))
  = inr Demo.vmh0 /\
  Pandas.getitem Demo.vmh0 "NsxFInt" = inr [Str "3"; Str "-"; NaN; Str "-5"] /\
  mapR normalize [Str "3"; Str "-"; NaN; Str "-5"]
  = inr [Int 3; Int 0; Int 0; Int (-5)] /\
  (exists nsxf0,
      Pandas.read_csv Demo.catalog_dropped Text.comma [] = inr nsxf0 /\
      rows (Pandas.dropna nsxf0) = []) /\
  snd (main default_args (Demo.files Demo.report Demo.catalog_dropped) start)
  = inl (Uncaught (TypeError "list indices must be integers or slices")) /\
  outfile (fst (run default_args (Demo.files Demo.report Demo.catalog_dropped))) = None /\
  snd (run default_args (Demo.files Demo.report Demo.catalog_dropped)) = 1%Z.
Proof.
  split; [vm_compute; reflexivity|].
  split; [reflexivity|].
  split; [reflexivity|].
  split; [eexists; split; vm_compute; reflexivity|].
  vm_compute. repeat split; reflexivity.
Qed.

(** ** The table that is written *)




(** ** Negative masks *)


















(** ** Input checks *)

(** C8. When the input file does not exist, or exists under a suffix
    other than [.csv] and [.tsv], the only thing the process does is to
    print one FATAL line that names the path; it exits with status 1 and
    no file is written. *)
Theorem bad_input_is_fatal (args : Args) (fs : FileSystem) :
  fs (input args) = None \/
  Pandas.mem (Text.suffix (input args)) [".csv"; ".tsv"] = false ->
  run args fs
  = (mkWorld ["FATAL: Input file " ++ input args ++
                match fs (input args) with
                | None => " does not exist."
                | Some _ => " is not CSV or TSV."
                end]%string
             None,
     1%Z).
Proof.
  intros H. destruct (fs (input args)) as [text|] eqn:Hin.
  - destruct H as [H|H]; [discriminate|].
    run_flags args; reflexivity.
  - run_flags args; reflexivity.
Qed.

Lemma bad_input_is_fatal_witness :
  run (mkArgs "vmh.txt" "nsxfint.csv" false false)
      (fun path => if String.eqb path "vmh.txt" then Some Demo.report else None)
  = (mkWorld ["FATAL: Input file vmh.txt is not CSV or TSV."] None, 1%Z) /\
  run default_args (fun _ => None)
  = (mkWorld ["FATAL: Input file vmh.tsv does not exist."] None, 1%Z).
Proof.
  split.
  - apply (bad_input_is_fatal (mkArgs "vmh.txt" "nsxfint.csv" false false)
             (fun path => if String.eqb path "vmh.txt" then Some Demo.report else None)).
    right. reflexivity.
  - apply (bad_input_is_fatal default_args (fun _ => None)).
    left. reflexivity.
Defined.

(** ** The row-skip pre-pass *)

Lemma split_length (sep : ascii) (s : string) :
  List.length (Text.split sep s) = S (Text.count sep s).
Proof.
  induction s as [|c s IH]; simpl; [reflexivity|].
  destruct (Ascii.eqb c sep); simpl; [now rewrite IH|].
  destruct (Text.split sep s) as [|f fs]; simpl in *; [discriminate|exact IH].
Qed.

Lemma rows_to_skip_spec (lines : list string) :
  forall k i,
    In i (rows_to_skip k lines) <->
    exists line, k <= i /\ nth_error lines (i - k) = Some line /\
                 Text.count Text.tab line = 0.
Proof.
  induction lines as [|l lines IH]; intros k i; simpl.
  - split; [contradiction|]. intros (line & _ & H & _). destruct (i - k); discriminate.
  - rewrite split_length.
    destruct (Nat.eqb_spec (S (Text.count Text.tab l)) 1) as [Hl|Hl]; simpl.
    + rewrite IH. split.
      * intros [<-|(line & Hk & Hn & Hc)].
        -- exists l. rewrite Nat.sub_diag. repeat split; [lia|lia].
        -- exists line. split; [lia|]. split; [|exact Hc].
           replace (i - k) with (S (i - S k)) by lia. exact Hn.
      * intros (line & Hk & Hn & Hc).
        destruct (Nat.eq_dec k i) as [->|Hne]; [now left|].
        right. exists line. split; [lia|]. split; [|exact Hc].
        replace (i - k) with (S (i - S k)) in Hn by lia. exact Hn.
    + rewrite IH. split.
      * intros (line & Hk & Hn & Hc). exists line. split; [lia|]. split; [|exact Hc].
        replace (i - k) with (S (i - S k)) by lia. exact Hn.
      * intros (line & Hk & Hn & Hc).
        destruct (Nat.eq_dec k i) as [->|Hne].
        -- rewrite Nat.sub_diag in Hn. injection Hn as ->. lia.
        -- exists line. split; [lia|]. split; [|exact Hc].
           replace (i - k) with (S (i - S k)) in Hn by lia. exact Hn.
Qed.

(** C7, as stated: a line is skipped exactly when its delimiter count
    differs from the modal one.  In a table of two lines with two tabs
    and one line with one tab the modal count is 2, the third line has
    another count, and the pre-pass does not skip it. *)
Lemma skip_rows_keeps_off_modal_line :
  ~ (forall lines m i line,
        SkipSpec.modal (SkipSpec.delimiter_counts lines) m ->
        nth_error lines i = Some line ->
        (In i (rows_to_skip 0 lines) <-> Text.count Text.tab line <> m)).
Proof.
  intros H.
  specialize (H (Text.readlines
                   (Demo.text_of [Demo.tsv ["vm1"; "3"; "a"];
                                  Demo.tsv ["vm2"; "4"; "b"];
                                  Demo.tsv ["vm3"; "5"]]))
                2 2 (Demo.tsv ["vm3"; "5"] ++ String Text.newline "")%string).
  assert (Hin : In 2 (rows_to_skip 0
                        (Text.readlines
                           (Demo.text_of [Demo.tsv ["vm1"; "3"; "a"];
                                          Demo.tsv ["vm2"; "4"; "b"];
                                          Demo.tsv ["vm3"; "5"]])))).
  { apply H.
    - split; [vm_compute; tauto|].
      intros k. vm_compute. destruct k as [|[|[|k]]]; simpl; lia.
    - reflexivity.
    - vm_compute. discriminate. }
  vm_compute in Hin. exact Hin.
Qed.

(** C7, amended.  The pre-pass returns the indices of the physical lines
    that hold no tab at all, and only those; so it skips no row of a table
    in which every line holds at least one tab. *)
Theorem skip_rows_skips_untabbed (args : Args) (fs : FileSystem) (path text : string)
  (w : World) :
  fs path = Some text ->
  exists skip,
    snd (skip_rows args fs path w) = inr skip /\
    (forall i, In i skip <->
               exists line, nth_error (Text.readlines text) i = Some line /\
                            Text.count Text.tab line = 0) /\
    (Forall (fun line => 0 < Text.count Text.tab line) (Text.readlines text) ->
     skip = []).
Proof.
  intros Hfs. exists (rows_to_skip 0 (Text.readlines text)).
  split.
  { unfold skip_rows, log, bind, print, exit, ret, lift, open. rewrite Hfs.
    destruct (debug args), (verbose args); reflexivity. }
  split.
  - intros i. rewrite rows_to_skip_spec, Nat.sub_0_r.
    split; intros (line & H); exists line; [tauto|].
    split; [lia|tauto].
  - intros Hall.
    destruct (rows_to_skip 0 (Text.readlines text)) as [|i rest] eqn:Hskip;
      [reflexivity|].
    assert (Hi : In i (rows_to_skip 0 (Text.readlines text)))
      by (rewrite Hskip; now left).
    apply rows_to_skip_spec in Hi as (line & _ & Hn & Hc).
    rewrite Forall_forall in Hall.
    apply nth_error_In, Hall in Hn. lia.
Qed.

Lemma skip_rows_skips_untabbed_witness :
  exists skip,
    snd (skip_rows default_args (Demo.files Demo.report Demo.catalog) "vmh.tsv" start)
    = inr skip /\
    In 0 skip /\ ~ In 1 skip.
Proof.
  destruct (skip_rows_skips_untabbed default_args (Demo.files Demo.report Demo.catalog)
              "vmh.tsv" Demo.report start eq_refl) as (skip & Hs & Hiff & _).
  exists skip. split; [exact Hs|]. split.
  - apply Hiff. eexists. split; reflexivity.
  - intros H. apply Hiff in H as (line & Hn & Hc).
    vm_compute in Hn. injection Hn as <-. vm_compute in Hc. discriminate.
Defined.

(** ** Catalog integrity *)

Lemma add_features_inr (cols : list string) (rs : list (list cell)) :
  forall df df',
    add_features cols df rs = inr df' ->
    forall row, In row rs -> exists d d', add_feature cols d row = inr d'.
Proof.
  induction rs as [|r rs IH]; intros df df' H row Hrow; [contradiction|].
  cbn [add_features] in H.
  destruct (add_feature cols df r) as [e|d'] eqn:Hr; [discriminate|].
  cbn [bindR] in H. destruct Hrow as [<-|Hrow].
  - exists df, d'. exact Hr.
  - exact (IH d' df' H row Hrow).
Qed.

(** When the resolver returns, every turn of the loop has returned. *)
Lemma resolve_inr_features (vmh_df nsxf_df df : DataFrame) :
  resolve vmh_df nsxf_df = inr df ->
  forall row, In row (Pandas.iterrows nsxf_df) ->
              exists d d', add_feature (columns nsxf_df) d row = inr d'.
Proof.
  intros H. unfold resolve in H.
  destruct (Pandas.getitem vmh_df "NsxFInt") as [|raw]; [discriminate|].
  cbn [bindR] in H.
  destruct (mapR Pandas.astype_int _) as [|ints]; [discriminate|].
  cbn [bindR] in H.
  destruct (Pandas.setitem vmh_df "NsxFInt" ints) as [|vmh']; [discriminate|].
  cbn [bindR] in H.
  destruct (Pandas.getitems vmh' ["Name"; "NsxFInt"]) as [|base]; [discriminate|].
  cbn [bindR] in H.
  destruct (add_features (columns nsxf_df) base (Pandas.iterrows nsxf_df))
    as [|ranked] eqn:Hadd; [discriminate|].
  exact (add_features_inr _ _ _ _ Hadd).
Qed.

(** A turn of the loop on a row whose edition is not in the list raises;
    when the mask test before the lookup goes through, what it raises is
    the [ValueError] of [editions.index]. *)
Lemma add_feature_unknown_edition (cols : list string) (df : DataFrame)
  (row : list cell) (c : cell) :
  row_get cols row "Edition" = inr c ->
  (forall e, c = Str e -> ~ In e editions) ->
  exists err,
    add_feature cols df row = inl err /\
    ((exists mask bit cond,
         Pandas.getitem df "NsxFInt" = inr mask /\
         row_get cols row "NSXFINT" = inr bit /\
         Pandas.and_positive mask bit = inr cond) ->
     exists msg, err = ValueError msg /\
                 forall e, c = Str e -> msg = (e ++ " is not in list")%string).
Proof.
  intros He Hnot. unfold add_feature.
  destruct (Pandas.getitem df "NsxFInt") as [e1|mask]; cbn [bindR].
  { exists e1. split; [reflexivity|]. intros (? & ? & ? & H & _). discriminate. }
  destruct (row_get cols row "NSXFINT") as [e2|bit]; cbn [bindR].
  { exists e2. split; [reflexivity|]. intros (? & ? & ? & _ & H & _). discriminate. }
  destruct (Pandas.and_positive mask bit) as [e3|cond] eqn:Hand; cbn [bindR].
  { exists e3. split; [reflexivity|].
    intros (m & b & c' & Hm & Hb & Hc). injection Hm as <-. injection Hb as <-.
    congruence. }
  rewrite He. cbn [bindR]. unfold editions_index.
  destruct c as [|e|z|s|b]; cbn [bindR];
    try (eexists; split; [reflexivity|]; intros _; eexists; split; [reflexivity|];
         intros e' He'; discriminate He').
  rewrite (index_of_none e editions (Hnot e eq_refl)). cbn [bindR].
  eexists. split; [reflexivity|]. intros _. eexists. split; [reflexivity|].
  intros e' He'. now injection He' as <-.
Qed.

(** C5. When a feature definition of the catalog, as it reaches the
    loop, has an edition that is not in the fixed edition list, the turn
    of the loop on that definition raises (the rank lookup
    [editions.index] fails with a [ValueError] once the mask test before
    it has gone through), and the run is aborted: nothing is written and
    the exit status is 1. *)
Theorem unknown_edition_aborts (args : Args) (fs : FileSystem) (ftext : string)
  (nsxf0 : DataFrame) (row : list cell) (c : cell) :
  fs "nsx_features.csv" = Some ftext ->
  Pandas.plain ftext = true ->
  Pandas.read_csv ftext Text.comma [] = inr nsxf0 ->
  In row (Pandas.iterrows (Pandas.dropna nsxf0)) ->
  row_get (columns nsxf0) row "Edition" = inr c ->
  (forall e, c = Str e -> ~ In e editions) ->
  (forall df, exists err,
      add_feature (columns nsxf0) df row = inl err /\
      ((exists mask bit cond,
           Pandas.getitem df "NsxFInt" = inr mask /\
           row_get (columns nsxf0) row "NSXFINT" = inr bit /\
           Pandas.and_positive mask bit = inr cond) ->
       exists msg, err = ValueError msg /\
                   forall e, c = Str e -> msg = (e ++ " is not in list")%string)) /\
  outfile (fst (run args fs)) = None /\
  snd (run args fs) = 1%Z.
Proof.
  intros Hfs _ Hread Hrow He Hnot.
  split; [intros df; now apply add_feature_unknown_edition|].
  destruct (run_inv args fs) as [(vmh_df & nsxf_df & Hl)|H]; [|exact H].
  destruct (run_loads _ _ _ _ Hl) as [Ho Hs].
  destruct (resolve vmh_df nsxf_df) as [err|df] eqn:Hres; [split; assumption|].
  exfalso.
  destruct Hl as (text & vmh0 & ftext' & nsxf0' & _ & _ & _ & _ & Hfs' & Hread' & ->).
  rewrite Hfs in Hfs'. injection Hfs' as <-.
  rewrite Hread in Hread'. injection Hread' as <-.
  destruct (resolve_inr_features _ _ _ Hres row Hrow) as (d & d' & Hd).
  destruct (add_feature_unknown_edition (columns nsxf0) d row c He Hnot) as (err & Herr & _).
  cbn [Pandas.dropna columns] in Hd. congruence.
Qed.

Lemma unknown_edition_aborts_witness :
  outfile (fst (run default_args
                  (Demo.files Demo.report
                     (Demo.text_of ["NSX Feature Name,NSXFINT,Edition";
                                    "Switching,1,Base";
                                    "Load Balancing,2,Gold"])))) = None /\
  snd (run default_args
         (Demo.files Demo.report
            (Demo.text_of ["NSX Feature Name,NSXFINT,Edition";
                           "Switching,1,Base";
                           "Load Balancing,2,Gold"]))) = 1%Z.
Proof.
  apply (unknown_edition_aborts default_args
           (Demo.files Demo.report
              (Demo.text_of ["NSX Feature Name,NSXFINT,Edition";
                             "Switching,1,Base";
                             "Load Balancing,2,Gold"]))
           (Demo.text_of ["NSX Feature Name,NSXFINT,Edition";
                          "Switching,1,Base";
                          "Load Balancing,2,Gold"])
           (mkDF ["NSX Feature Name"; "NSXFINT"; "Edition"]
                 [[Str "Switching"; Int 1; Str "Base"];
                  [Str "Load Balancing"; Int 2; Str "Gold"]])
           [Str "Load Balancing"; Int 2; Str "Gold"] (Str "Gold")).
  - reflexivity.
  - reflexivity.
  - vm_compute. reflexivity.
  - simpl. tauto.
  - reflexivity.
  - intros e He. injection He as <-. simpl. intuition discriminate.
Defined.

(** ** The empty catalog *)

(** C9.  The specification expects a run whose catalog loses every row
    to complete and to write a table without feature columns.  With the
    catalog whose only row misses its edition and the report of scenarios
    1 and 2, every catalog row is dropped, and the script does not
    complete: the row maximum over no column is [NaN], [editions[x]]
    raises a [TypeError] nobody catches, the exit status is 1 and no file
    is written. *)
Theorem empty_catalog_run_aborts :
  (exists nsxf0,
      Pandas.read_csv Demo.catalog_dropped Text.comma [] = inr nsxf0 /\
      rows nsxf0 <> [] /\ rows (Pandas.dropna nsxf0) = []) /\
  snd (main default_args (Demo.files Demo.report1 Demo.catalog_dropped) start)
  = inl (Uncaught (TypeError "list indices must be integers or slices")) /\
  outfile (fst (run default_args (Demo.files Demo.report1 Demo.catalog_dropped))) = None /\
  snd (run default_args (Demo.files Demo.report1 Demo.catalog_dropped)) = 1%Z.
Proof.
  split.
  - eexists. split; [vm_compute; reflexivity|]. split; [discriminate|reflexivity].
  - vm_compute. repeat split; reflexivity.
Qed.

(** The same for every report: with no catalog row left the loop adds no
    feature column; the run completes, with status 0 and a table of the
    three columns [Name], [NsxFInt] and [NSX Edition], only when the
    report holds no VM record, and ends in the [TypeError] of the edition
    lookup, with status 1 and nothing written, when it holds at least
    one. *)
Lemma empty_catalog_run (args : Args) (fs : FileSystem) (vmh_df nsxf_df : DataFrame)
  (vms : list VM) :
  plain_files args fs ->
  loads args fs vmh_df nsxf_df ->
  report_rows vmh_df vms ->
  rows nsxf_df = [] ->
  In "NSX Feature Name" (columns nsxf_df) ->
  (vms = [] ->
   outfile (fst (run args fs))
   = Some (output args, mkDF ["Name"; "NsxFInt"; "NSX Edition"] []) /\
   snd (run args fs) = 0%Z) /\
  (vms <> [] ->
   snd (main args fs start)
   = inl (Uncaught (TypeError "list indices must be integers or slices")) /\
   outfile (fst (run args fs)) = None /\
   snd (run args fs) = 1%Z).
Proof.
  intros _ Hl Hrep Hrows Hcol.
  destruct (run_loads _ _ _ _ Hl) as [Ho Hs].
  destruct (main_loads _ _ _ _ Hl) as [_ Hm].
  rewrite (resolve_empty_catalog vmh_df nsxf_df vms
             (loads_rectangular _ _ _ _ Hl) Hrep Hrows Hcol) in Ho, Hs, Hm.
  split; intros Hvms.
  - subst vms. split; assumption.
  - destruct vms as [|vm vms']; [congruence|]. repeat split; assumption.
Qed.

Example empty_catalog_run_cases :
  (outfile (fst (run default_args (Demo.files Demo.report_empty Demo.catalog_dropped)))
   = Some ("nsxfint.csv", mkDF ["Name"; "NsxFInt"; "NSX Edition"] []) /\
   snd (run default_args (Demo.files Demo.report_empty Demo.catalog_dropped)) = 0%Z) /\
  outfile (fst (run default_args (Demo.files Demo.report1 Demo.catalog_dropped))) = None.
Proof.
  split.
  - apply (empty_catalog_run default_args
             (Demo.files Demo.report_empty Demo.catalog_dropped)
             (mkDF ["Name"; "NsxFInt"] [])
             (mkDF ["NSX Feature Name"; "NSXFINT"; "Edition"] []) []).
    + reflexivity.
    + exists Demo.report_empty, (mkDF ["Name"; "NsxFInt"] []), Demo.catalog_dropped,
        (mkDF ["NSX Feature Name"; "NSXFINT"; "Edition"]
              [[Str "Micro-segmentation"; Int 4; NaN]]).
      repeat split; vm_compute; reflexivity.
    + exists 0, 1. repeat split; constructor.
    + reflexivity.
    + simpl. tauto.
    + reflexivity.
  - apply (empty_catalog_run default_args
             (Demo.files Demo.report1 Demo.catalog_dropped)
             (mkDF ["Name"; "NsxFInt"] [[Str "vm1"; Int 4]; [Str "vm2"; Int 0]])
             (mkDF ["NSX Feature Name"; "NSXFINT"; "Edition"] [])
             [mkVM (Str "vm1") 4; mkVM (Str "vm2") 0]).
    + reflexivity.
    + exists Demo.report1,
        (mkDF ["Name"; "NsxFInt"] [[Str "vm1"; Int 4]; [Str "vm2"; Int 0]]),
        Demo.catalog_dropped,
        (mkDF ["NSX Feature Name"; "NSXFINT"; "Edition"]
              [[Str "Micro-segmentation"; Int 4; NaN]]).
      repeat split; vm_compute; reflexivity.
    + exists 0, 1. repeat split; repeat constructor.
    + reflexivity.
    + simpl. tauto.
    + discriminate.
Qed.

(** ** The separator of the report *)

Lemma readlines_untabbed (text : string) :
  Text.count Text.tab text = 0 ->
  Forall (fun line => Text.count Text.tab line = 0) (Text.readlines text).
Proof.
  induction text as [|c s IH]; simpl; intros H; [constructor|].
  destruct (Ascii.eqb c Text.tab) eqn:Hc; [discriminate|].
  specialize (IH H).
  destruct (Ascii.eqb c Text.newline).
  - constructor; [simpl; now rewrite Hc|exact IH].
  - destruct (Text.readlines s) as [|l ls].
    + constructor; [simpl; now rewrite Hc|constructor].
    + inversion IH; subst. constructor; [simpl; rewrite Hc; assumption|assumption].
Qed.

Lemma rows_to_skip_all (lines : list string) :
  Forall (fun line => Text.count Text.tab line = 0) lines ->
  forall k, rows_to_skip k lines = seq k (List.length lines).
Proof.
  induction 1 as [|l lines Hl _ IH]; intros k; simpl; [reflexivity|].
  now rewrite split_length, Hl, IH.
Qed.

Lemma drop_rows_all (skip : list nat) (lines : list string) :
  forall i,
    (forall j, i <= j < i + List.length lines -> In j skip) ->
    Pandas.drop_rows skip i lines = [].
Proof.
  induction lines as [|l lines IH]; intros i H; simpl; [reflexivity|].
  replace (existsb (Nat.eqb i) skip) with true.
  - apply IH. intros j Hj. apply H. simpl. lia.
  - symmetry. apply existsb_exists. exists i. split; [|apply Nat.eqb_refl].
    apply H. simpl. lia.
Qed.

(** A report without a single tab, whatever its suffix: the pre-pass
    names every line, [read_csv] has nothing to read, and the run ends
    with status 1 and nothing written.  This is the fate of every
    comma-delimited report. *)
Lemma untabbed_report_is_not_parsed (args : Args) (fs : FileSystem) (text : string) :
  fs (input args) = Some text ->
  Text.count Text.tab text = 0 ->
  Pandas.read_csv text Text.tab (rows_to_skip 0 (Text.readlines text))
  = inl EmptyDataError /\
  outfile (fst (run args fs)) = None /\
  snd (run args fs) = 1%Z.
Proof.
  intros Hfs Htab.
  assert (Hread : Pandas.read_csv text Text.tab (rows_to_skip 0 (Text.readlines text))
                  = inl EmptyDataError).
  { unfold Pandas.read_csv, Pandas.fields.
    rewrite (rows_to_skip_all _ (readlines_untabbed text Htab)).
    rewrite drop_rows_all; [reflexivity|].
    intros j Hj. apply in_seq. lia. }
  split; [exact Hread|].
  destruct (run_inv args fs) as [(vmh_df & nsxf_df & Hl)|H]; [|exact H].
  destruct Hl as (text' & vmh0 & _ & _ & Hfs' & _ & Hread' & _).
  rewrite Hfs in Hfs'. injection Hfs' as <-. congruence.
Qed.

(** C6.  The report of scenario 1 written with commas, under the name
    [vmh.csv], passes the suffix check; read with the comma it has the
    columns [Name] and [NsxFInt].  The script reads it with the tab: no
    line holds a tab, the pre-pass names every line, [read_csv] is left
    with nothing and raises, and no file is written. *)
Theorem comma_report_is_not_parsed :
  Text.suffix "vmh.csv" = ".csv" /\
  Pandas.read_csv Demo.report_commas Text.comma []
  = inr (mkDF ["Name"; "NsxFInt"] [[Str "vm1"; Int 4]]) /\
  rows_to_skip 0 (Text.readlines Demo.report_commas) = [0; 1] /\
  Pandas.read_csv Demo.report_commas Text.tab [0; 1] = inl EmptyDataError /\
  main (mkArgs "vmh.csv" "nsxfint.csv" false false) Demo.files_commas start
  = (mkWorld ["INFO: Reading input file vmh.csv...";
              "INFO: Determining rows to skip...";
              "INFO: Rows to skip: [0, 1]"] None,
     inl (Uncaught EmptyDataError)) /\
  run (mkArgs "vmh.csv" "nsxfint.csv" false false) Demo.files_commas
  = (mkWorld ["INFO: Reading input file vmh.csv...";
              "INFO: Determining rows to skip...";
              "INFO: Rows to skip: [0, 1]"] None,
     1%Z).
Proof.
  repeat split; vm_compute; reflexivity.
Qed.

(** * Further properties of the script *)

(** ** Logging *)

(** X1.  [log] never drops a message: every call prints exactly one line,
    a tag followed by the message, and writes no file.  The tag is DEBUG
    exactly for a debug message under [--debug]; otherwise VERBOSE
    exactly for a verbose message under [--verbose]; otherwise FATAL
    exactly for a fatal message; and INFO in every other case, so that a
    message for the debug or the verbose level is printed under the INFO
    tag when the matching flag of the command line is off.  The process
    exits, with status 1, exactly when the tag is FATAL, so that a fatal
    message that is also a debug message does not stop a run started
    with [--debug]. *)
Theorem log_always_prints (args : Args) (msg : string) (d v f : bool) (w : World) :
  (exists tag,
      In tag ["DEBUG: "; "VERBOSE: "; "FATAL: "; "INFO: "] /\
      fst (log args msg d v f w) = mkWorld (stdout w ++ [(tag ++ msg)%string]) (outfile w) /\
      (tag = "DEBUG: " <-> d = true /\ debug args = true) /\
      (tag = "VERBOSE: " <->
       (d = false \/ debug args = false) /\ v = true /\ verbose args = true) /\
      (tag = "FATAL: " <->
       (d = false \/ debug args = false) /\ (v = false \/ verbose args = false) /\
       f = true) /\
      (tag = "INFO: " <->
       (d = false \/ debug args = false) /\ (v = false \/ verbose args = false) /\
       f = false) /\
      (snd (log args msg d v f w) = inl (SystemExit 1) <-> tag = "FATAL: ")) /\
  (snd (log args msg d v f w) = inl (SystemExit 1) <->
   f = true /\ d && debug args = false /\ v && verbose args = false) /\
  (snd (log args msg d v f w) = inr tt \/ snd (log args msg d v f w) = inl (SystemExit 1)).
Proof.
  unfold log, bind, print, exit.
  split;
    [exists (if d && debug args then "DEBUG: "
             else if v && verbose args then "VERBOSE: "
             else if f then "FATAL: " else "INFO: ")|];
    destruct d, v, f, (debug args), (verbose args); cbn;
    intuition (discriminate || congruence).
Qed.

(** X2.  A run that gets both tables loaded, from plain files, prints
    exactly four lines before the resolver starts, tagged by the two
    flags, and nothing after: the resolver prints nothing, and an
    exception it raises leaves no line on the standard output. *)
Theorem loaded_run_prints_four_lines (args : Args) (fs : FileSystem)
  (vmh_df nsxf_df : DataFrame) (text : string) :
  plain_files args fs ->
  loads args fs vmh_df nsxf_df ->
  fs (input args) = Some text ->
  stdout (fst (run args fs))
  = [((if verbose args then "VERBOSE: " else "INFO: ")
        ++ "Reading input file " ++ input args ++ "...")%string;
     ((if debug args then "DEBUG: " else "INFO: ")
        ++ "Determining rows to skip...")%string;
     ((if debug args then "DEBUG: " else "INFO: ")
        ++ "Rows to skip: "
        ++ Text.repr_list (rows_to_skip 0 (Text.readlines text)))%string;
     ((if verbose args then "VERBOSE: " else "INFO: ")
        ++ "Reading NSX Features...")%string].
Proof.
  intros _ (text' & vmh0 & ftext & nsxf0 & Hin & Hsuf & Hread & -> & Hcat & Hreadc & ->) Hfs.
  rewrite Hfs in Hin. injection Hin as <-.
  run_flags args; destruct (resolve _ _); reflexivity.
Qed.

Lemma loaded_run_prints_four_lines_witness :
  stdout (fst (run (mkArgs "vmh.tsv" "nsxfint.csv" true false)
                   (Demo.files Demo.report Demo.catalog)))
  = ["INFO: Reading input file vmh.tsv...";
     "DEBUG: Determining rows to skip...";
     "DEBUG: Rows to skip: [0]";
     "INFO: Reading NSX Features..."].
Proof.
  apply (loaded_run_prints_four_lines (mkArgs "vmh.tsv" "nsxfint.csv" true false)
           (Demo.files Demo.report Demo.catalog)
           (Pandas.rename "#Name" "Name" Demo.vmh0) (Pandas.dropna Demo.nsxf0)
           Demo.report).
  - reflexivity.
  - exists Demo.report, Demo.vmh0, Demo.catalog, Demo.nsxf0.
    repeat split; vm_compute; reflexivity.
  - reflexivity.
Defined.

(** ** The catalog file *)

(** X4.  When the report, a plain file, is read but [nsx_features.csv]
    does not exist, the run ends in an uncaught [FileNotFoundError] for
    that path, with status 1 and nothing written; the four progress lines
    are all it has printed, no FATAL line among them. *)
Theorem missing_catalog_is_uncaught (args : Args) (fs : FileSystem) (text : string)
  (vmh0 : DataFrame) :
  fs (input args) = Some text ->
  Pandas.plain text = true ->
  Pandas.mem (Text.suffix (input args)) [".csv"; ".tsv"] = true ->
  Pandas.read_csv text Text.tab (rows_to_skip 0 (Text.readlines text)) = inr vmh0 ->
  fs "nsx_features.csv" = None ->
  snd (main args fs start) = inl (Uncaught (FileNotFoundError "nsx_features.csv")) /\
  run args fs
  = (mkWorld
       [((if verbose args then "VERBOSE: " else "INFO: ")
           ++ "Reading input file " ++ input args ++ "...")%string;
        ((if debug args then "DEBUG: " else "INFO: ")
           ++ "Determining rows to skip...")%string;
        ((if debug args then "DEBUG: " else "INFO: ")
           ++ "Rows to skip: "
           ++ Text.repr_list (rows_to_skip 0 (Text.readlines text)))%string;
        ((if verbose args then "VERBOSE: " else "INFO: ")
           ++ "Reading NSX Features...")%string]
       None,
     1%Z).
Proof.
  intros Hin _ Hsuf Hread Hcat.
  run_flags args; split; reflexivity.
Qed.

Lemma missing_catalog_is_uncaught_witness :
  run default_args (fun path => if String.eqb path "vmh.tsv" then Some Demo.report else None)
  = (mkWorld ["INFO: Reading input file vmh.tsv...";
              "INFO: Determining rows to skip...";
              "INFO: Rows to skip: [0]";
              "INFO: Reading NSX Features..."] None,
     1%Z).
Proof.
  apply (missing_catalog_is_uncaught default_args
           (fun path => if String.eqb path "vmh.tsv" then Some Demo.report else None)
           Demo.report Demo.vmh0).
  - reflexivity.
  - reflexivity.
  - reflexivity.
  - vm_compute. reflexivity.
  - reflexivity.
Defined.

(** ** Missing columns *)

Lemma mapR_length {A B : Type} (f : A -> result B) (l : list A) (l' : list B) :
  mapR f l = inr l' -> List.length l' = List.length l.
Proof.
  intros H. apply mapR_inr in H. symmetry. exact (Forall2_length H).
Qed.

Lemma resolve_missing_mask (vmh_df nsxf_df : DataFrame) :
  ~ In "NsxFInt" (columns vmh_df) ->
  resolve vmh_df nsxf_df = inl (KeyError "NsxFInt").
Proof.
  intros H. unfold resolve, Pandas.getitem.
  now rewrite (index_of_none _ _ H).
Qed.

(** A column of cells that all stand for a mask is normalised without
    error. *)
Lemma normalize_defined (raw : list cell) :
  Forall (fun c => mask_of c <> None) raw ->
  exists ints,
    mapR Pandas.astype_int (map Pandas.replace_dash0 (map Pandas.fillna0 raw)) = inr ints.
Proof.
  induction 1 as [|c raw Hc _ (ints & IH)]; [now exists []|].
  destruct (mask_of c) as [m|] eqn:Hm; [|congruence].
  apply mask_of_normalize in Hm. unfold normalize in Hm.
  exists (Int m :: ints). cbn [map mapR]. now rewrite Hm, IH.
Qed.

Lemma resolve_missing_name (vmh_df nsxf_df : DataFrame) :
  ~ In "Name" (columns vmh_df) ->
  exists e,
    resolve vmh_df nsxf_df = inl e /\
    (forall raw,
        Pandas.getitem vmh_df "NsxFInt" = inr raw ->
        Forall (fun c => mask_of c <> None) raw ->
        e = KeyError "Name").
Proof.
  intros H. unfold resolve.
  destruct (Pandas.getitem vmh_df "NsxFInt") as [e|raw] eqn:Hraw; cbn [bindR].
  { exists e. split; [reflexivity|]. intros; discriminate. }
  destruct (mapR Pandas.astype_int _) as [e|ints] eqn:Hints; cbn [bindR].
  { exists e. split; [reflexivity|]. intros raw' Hr Hall. injection Hr as <-.
    destruct (normalize_defined raw Hall) as (ints & Hok). congruence. }
  unfold Pandas.getitem in Hraw.
  destruct (Pandas.index_of "NsxFInt" (columns vmh_df)) as [j|] eqn:Hj; [|discriminate].
  injection Hraw as <-.
  unfold Pandas.setitem.
  rewrite (mapR_length _ _ _ Hints), !length_map. unfold Pandas.column_at.
  rewrite length_map, Nat.eqb_refl.
  destruct (Pandas.positions "NsxFInt" 0 (columns vmh_df)) as [|j' js] eqn:Hpos.
  { apply positions_nil_index_of in Hpos. congruence. }
  cbn [bindR]. unfold Pandas.getitems. cbn [columns mapR].
  rewrite (positions_none _ _ 0 H). cbn [bindR].
  exists (KeyError "Name"). split; reflexivity.
Qed.

(** X5.  A report, a plain file, without the column [NsxFInt] ends the
    run in an uncaught [KeyError] for that label; a report with that
    column, whose cells all stand for a mask, but without the column
    [Name] (under either header) ends it in a [KeyError] for [Name].  In
    both cases, and whatever else the files hold, the exit status is 1
    and nothing is written. *)
Theorem missing_column_is_key_error (args : Args) (fs : FileSystem)
  (vmh_df nsxf_df : DataFrame) :
  plain_files args fs ->
  loads args fs vmh_df nsxf_df ->
  ~ In "NsxFInt" (columns vmh_df) \/ ~ In "Name" (columns vmh_df) ->
  (~ In "NsxFInt" (columns vmh_df) ->
   snd (main args fs start) = inl (Uncaught (KeyError "NsxFInt"))) /\
  (forall raw,
      Pandas.getitem vmh_df "NsxFInt" = inr raw ->
      Forall (fun c => mask_of c <> None) raw ->
      ~ In "Name" (columns vmh_df) ->
      snd (main args fs start) = inl (Uncaught (KeyError "Name"))) /\
  outfile (fst (run args fs)) = None /\
  snd (run args fs) = 1%Z.
Proof.
  intros _ Hl Hmiss.
  destruct (main_loads _ _ _ _ Hl) as [_ Hm]. destruct (run_loads _ _ _ _ Hl) as [Ho Hs].
  split; [|split].
  - intros H. now rewrite (resolve_missing_mask _ nsxf_df H) in Hm.
  - intros raw Hraw Hall H.
    destruct (resolve_missing_name vmh_df nsxf_df H) as (e & He & Hk).
    rewrite He in Hm. now rewrite (Hk raw Hraw Hall) in Hm.
  - destruct Hmiss as [H|H].
    + rewrite (resolve_missing_mask _ nsxf_df H) in Ho, Hs. now split.
    + destruct (resolve_missing_name vmh_df nsxf_df H) as (e & He & _).
      rewrite He in Ho, Hs. now split.
Qed.

Lemma missing_column_is_key_error_witness :
  snd (main default_args
         (Demo.files (Demo.text_of [Demo.tsv ["VM"; "NsxFInt"]; Demo.tsv ["vm1"; "4"]])
                     Demo.catalog1) start)
  = inl (Uncaught (KeyError "Name")) /\
  snd (main default_args
         (Demo.files (Demo.text_of [Demo.tsv ["Name"; "Mask"]; Demo.tsv ["vm1"; "4"]])
                     Demo.catalog1) start)
  = inl (Uncaught (KeyError "NsxFInt")).
Proof.
  split.
  - apply (missing_column_is_key_error default_args
             (Demo.files (Demo.text_of [Demo.tsv ["VM"; "NsxFInt"]; Demo.tsv ["vm1"; "4"]])
                         Demo.catalog1)
             (mkDF ["VM"; "NsxFInt"] [[Str "vm1"; Int 4]])
             (mkDF ["NSX Feature Name"; "NSXFINT"; "Edition"]
                   [[Str "Micro-segmentation"; Int 4; Str "Advanced"]]))
      with (raw := [Int 4]).
    + reflexivity.
    + eexists _, (mkDF ["VM"; "NsxFInt"] [[Str "vm1"; Int 4]]), _,
        (mkDF ["NSX Feature Name"; "NSXFINT"; "Edition"]
              [[Str "Micro-segmentation"; Int 4; Str "Advanced"]]).
      repeat split; vm_compute; reflexivity.
    + right. simpl. intuition discriminate.
    + reflexivity.
    + repeat constructor. discriminate.
    + simpl. intuition discriminate.
  - apply (missing_column_is_key_error default_args
             (Demo.files (Demo.text_of [Demo.tsv ["Name"; "Mask"]; Demo.tsv ["vm1"; "4"]])
                         Demo.catalog1)
             (mkDF ["Name"; "Mask"] [[Str "vm1"; Int 4]])
             (mkDF ["NSX Feature Name"; "NSXFINT"; "Edition"]
                   [[Str "Micro-segmentation"; Int 4; Str "Advanced"]])).
    + reflexivity.
    + eexists _, (mkDF ["Name"; "Mask"] [[Str "vm1"; Int 4]]), _,
        (mkDF ["NSX Feature Name"; "NSXFINT"; "Edition"]
              [[Str "Micro-segmentation"; Int 4; Str "Advanced"]]).
      repeat split; vm_compute; reflexivity.
    + left. simpl. intuition discriminate.
    + simpl. intuition discriminate.
Defined.

(** ** The two loaders *)

Lemma index_of_rename (old new k : string) (cols : list string) :
  k <> old -> k <> new ->
  Pandas.index_of k (map (fun c => if String.eqb c old then new else c) cols)
  = Pandas.index_of k cols.
Proof.
  intros Ho Hn. induction cols as [|c cols IH]; simpl; [reflexivity|].
  rewrite IH. destruct (String.eqb_spec c old) as [->|Hc].
  - destruct (String.eqb_spec k new); [congruence|].
    destruct (String.eqb_spec k old); [congruence|reflexivity].
  - reflexivity.
Qed.

Lemma index_of_renamed (old new : string) (cols : list string) :
  ~ In new cols ->
  Pandas.index_of new (map (fun c => if String.eqb c old then new else c) cols)
  = Pandas.index_of old cols.
Proof.
  intros H. induction cols as [|c cols IH]; simpl; [reflexivity|].
  rewrite IH by (intros Hc; apply H; now right).
  destruct (String.eqb_spec c old) as [->|Hc].
  - now rewrite !String.eqb_refl.
  - destruct (String.eqb_spec new c) as [->|_]; [exfalso; apply H; now left|].
    destruct (String.eqb_spec old c); [congruence|reflexivity].
Qed.

(** X6.  The alternate header: in a report without a column [Name], the
    column headed [#Name] is the one the script reads as [Name]; every
    other column stays under its label, the header [#Name] is gone, and
    no cell changes. *)
Theorem hash_name_is_read_as_name (vmh0 : DataFrame) :
  ~ In "Name" (columns vmh0) ->
  rows (Pandas.rename "#Name" "Name" vmh0) = rows vmh0 /\
  ~ In "#Name" (columns (Pandas.rename "#Name" "Name" vmh0)) /\
  (forall j, Pandas.index_of "#Name" (columns vmh0) = Some j ->
             Pandas.getitem (Pandas.rename "#Name" "Name" vmh0) "Name"
             = inr (Pandas.column_at j vmh0)) /\
  (forall k, k <> "Name" -> k <> "#Name" ->
             Pandas.getitem (Pandas.rename "#Name" "Name" vmh0) k
             = Pandas.getitem vmh0 k).
Proof.
  intros H. unfold Pandas.rename, Pandas.getitem, Pandas.column_at.
  cbn [columns rows].
  split; [reflexivity|]. split; [|split].
  - intros Hin. apply in_map_iff in Hin as (c & Hc & _).
    destruct (String.eqb_spec c "#Name"); [discriminate|contradiction].
  - intros j Hj. now rewrite (index_of_renamed "#Name" "Name" _ H), Hj.
  - intros k Hk Hk'. now rewrite index_of_rename.
Qed.

Lemma hash_name_is_read_as_name_witness :
  Pandas.getitem (Pandas.rename "#Name" "Name" Demo.vmh0) "Name"
  = inr [Str "vm1"; Str "vm2"; Str "vm3"; Str "vm4"].
Proof.
  destruct (hash_name_is_read_as_name Demo.vmh0) as (_ & _ & Hname & _).
  - simpl. intuition discriminate.
  - exact (Hname 0 eq_refl).
Defined.



(** X8.  The resolver reads two columns of the report and no other: two
    reports that hold the same names and the same masks, whatever their
    other columns and the order of their columns, give the same result
    with any catalog, be it a table or an exception. *)
Theorem resolve_reads_two_columns (vmh1 vmh2 nsxf_df : DataFrame) (vms : list VM) :
  rectangular vmh1 -> rectangular vmh2 ->
  report_rows vmh1 vms -> report_rows vmh2 vms ->
  resolve vmh1 nsxf_df = resolve vmh2 nsxf_df.
Proof.
  intros R1 R2 H1 H2. unfold resolve.
  rewrite (resolve_base vmh1 vms _ R1 H1), (resolve_base vmh2 vms _ R2 H2).
  reflexivity.
Qed.

Lemma resolve_reads_two_columns_witness :
  resolve (mkDF ["Name"; "NsxFInt"] [[Str "vm1"; Str "3"]; [Str "vm2"; Str "-"]])
          (Pandas.dropna Demo.nsxf0)
  = resolve (mkDF ["Host"; "NsxFInt"; "Name"]
                  [[Str "h1"; Float "3"; Str "vm1"]; [NaN; NaN; Str "vm2"]])
            (Pandas.dropna Demo.nsxf0).
Proof.
  apply (resolve_reads_two_columns _ _ _ [mkVM (Str "vm1") 3; mkVM (Str "vm2") 0]).
  - repeat constructor.
  - repeat constructor.
  - exists 0, 1. repeat split; repeat constructor.
  - exists 2, 1. repeat split; repeat constructor.
Defined.

(** ** The pre-pass and the header *)

Lemma rows_to_skip_sorted (lines : list string) :
  forall k,
    Forall (fun i => k <= i < k + List.length lines) (rows_to_skip k lines) /\
    StronglySorted lt (rows_to_skip k lines).
Proof.
  induction lines as [|l lines IH]; intros k; simpl.
  - split; constructor.
  - destruct (IH (S k)) as [Hb Hs].
    assert (Hb' : Forall (fun i => k <= i < k + S (List.length lines))
                         (rows_to_skip (S k) lines))
      by (eapply Forall_impl; [|exact Hb]; cbv beta; intros; lia).
    destruct (Nat.eqb _ 1).
    + split.
      * constructor; [lia|exact Hb'].
      * constructor; [exact Hs|].
        eapply Forall_impl; [|exact Hb]. cbv beta. intros; lia.
    + split; assumption.
Qed.

(** X9.  The list [skip_rows] returns holds indices of lines of the
    file, in strictly increasing order, so none twice and none beyond the
    last line; the call prints two lines and writes no file. *)
Theorem skip_rows_indices_in_order (args : Args) (fs : FileSystem) (path text : string)
  (w : World) :
  fs path = Some text ->
  exists skip,
    snd (skip_rows args fs path w) = inr skip /\
    Forall (fun i => i < List.length (Text.readlines text)) skip /\
    StronglySorted lt skip /\
    NoDup skip /\
    List.length (stdout (fst (skip_rows args fs path w))) = 2 + List.length (stdout w) /\
    outfile (fst (skip_rows args fs path w)) = outfile w.
Proof.
  intros Hfs. exists (rows_to_skip 0 (Text.readlines text)).
  destruct (rows_to_skip_sorted (Text.readlines text) 0) as [Hb Hs].
  split; [|split; [|split; [|split]]].
  - unfold skip_rows, log, bind, print, exit, ret, lift, open. rewrite Hfs.
    destruct (debug args), (verbose args); reflexivity.
  - eapply Forall_impl; [|exact Hb]. cbv beta. intros; lia.
  - exact Hs.
  - clear Hb. induction Hs as [|i l _ IH Hall]; constructor; [|exact IH].
    intros Hin. rewrite Forall_forall in Hall. specialize (Hall i Hin). lia.
  - unfold skip_rows, log, bind, print, exit, ret, lift, open. rewrite Hfs.
    destruct (debug args), (verbose args); cbn; rewrite !length_app; simpl;
      (split; [lia|reflexivity]).
Qed.

Lemma skip_rows_indices_in_order_witness :
  exists skip,
    snd (skip_rows default_args (Demo.files Demo.report Demo.catalog) "vmh.tsv" start)
    = inr skip /\
    Forall (fun i => i < 6) skip.
Proof.
  destruct (skip_rows_indices_in_order default_args (Demo.files Demo.report Demo.catalog)
              "vmh.tsv" Demo.report start eq_refl) as (skip & Hs & Hb & _).
  exists skip. split; [exact Hs|exact Hb].
Defined.

Lemma drop_rows_filter (skip : list nat) (lines : list string) :
  forall k,
    (forall j line, nth_error lines j = Some line ->
                    (In (k + j) skip <-> Text.count Text.tab line = 0)) ->
    Pandas.drop_rows skip k lines = filter has_tab lines.
Proof.
  induction lines as [|l lines IH]; intros k H; simpl; [reflexivity|].
  rewrite (IH (S k))
    by (intros j line Hj; rewrite <- (H (S j) line Hj); now rewrite Nat.add_succ_r).
  pose proof (H 0 l eq_refl) as H0. rewrite Nat.add_0_r in H0.
  unfold has_tab. destruct (Nat.eqb_spec (Text.count Text.tab l) 0) as [Hc|Hc]; simpl.
  - replace (existsb (Nat.eqb k) skip) with true; [reflexivity|].
    symmetry. apply existsb_exists. exists k. split; [now apply H0|apply Nat.eqb_refl].
  - replace (existsb (Nat.eqb k) skip) with false; [reflexivity|].
    symmetry. apply not_true_is_false. intros Hex.
    apply existsb_exists in Hex as (i & Hi & Heq). apply Nat.eqb_eq in Heq. subst i.
    apply Hc, H0, Hi.
Qed.


Lemma chomp_readlines (text : string) :
  Forall (fun l => Text.count Text.tab (Text.chomp l) = Text.count Text.tab l)
         (Text.readlines text).
Proof.
  induction text as [|c s IH]; simpl; [constructor|].
  destruct (Ascii.eqb c Text.newline) eqn:Hc.
  - constructor; [|exact IH]. simpl. rewrite Hc. simpl.
    apply Ascii.eqb_eq in Hc. subst c. reflexivity.
  - destruct (Text.readlines s) as [|l ls].
    + constructor; [|constructor]. simpl. now rewrite Hc.
    + inversion IH as [|? ? Hl Hls]; subst. constructor; [|exact Hls].
      simpl. rewrite Hc. simpl. now rewrite Hl.
Qed.

(** A line that holds the separator is no blank line. *)
Lemma tabbed_is_not_blank (l : string) :
  Text.count Text.tab l <> 0 -> Pandas.blank Text.tab l = false.
Proof.
  unfold Pandas.blank. induction l as [|c l IH]; simpl; [congruence|].
  destruct (Ascii.eqb c Text.tab) eqn:Hc; simpl.
  - intros _. now rewrite orb_true_r.
  - intros H. rewrite IH by exact H. apply andb_false_r.
Qed.

Lemma tabbed_lines_are_not_blank (ls : list string) :
  Forall (fun l => Text.count Text.tab (Text.chomp l) = Text.count Text.tab l) ls ->
  filter (fun l => negb (Pandas.blank Text.tab l)) (map Text.chomp (filter has_tab ls))
  = map Text.chomp (filter has_tab ls).
Proof.
  induction 1 as [|l ls Hl _ IH]; simpl; [reflexivity|].
  destruct (has_tab l) eqn:Ht; simpl; [|exact IH].
  rewrite tabbed_is_not_blank, IH; [reflexivity|].
  rewrite Hl. unfold has_tab in Ht.
  destruct (Nat.eqb_spec (Text.count Text.tab l) 0); [discriminate|assumption].
Qed.

Lemma drop_rows_skipped (lines : list string) :
  Pandas.drop_rows (rows_to_skip 0 lines) 0 lines = filter has_tab lines.
Proof.
  apply drop_rows_filter. intros j line Hj. cbn [Nat.add].
  rewrite rows_to_skip_spec, Nat.sub_0_r. split.
  - intros (line' & _ & Hj' & Hc). congruence.
  - intros Hc. exists line. split; [lia|]. split; assumption.
Qed.

Lemma dedup_names_length (names : list string) :
  forall seen i, List.length (Pandas.dedup_names seen i names) = List.length names.
Proof.
  induction names as [|n names IH]; intros seen i; simpl; [reflexivity|].
  now rewrite IH.
Qed.

(** Labels that are not empty and differ from each other stay as they
    are. *)
Lemma dedup_names_distinct (names : list string) :
  forall seen i,
    NoDup names -> ~ In "" names ->
    (forall n, In n names -> ~ In n seen) ->
    Pandas.dedup_names seen i names = names.
Proof.
  induction names as [|n names IH]; intros seen i Hnd Hne Hseen; simpl; [reflexivity|].
  inversion Hnd as [|? ? Hn Hnd']; subst.
  destruct (String.eqb_spec n "") as [->|_]; [exfalso; apply Hne; now left|].
  assert (Hk : filter (String.eqb n) seen = []).
  { induction seen as [|x seen IHs]; simpl; [reflexivity|].
    destruct (String.eqb_spec n x) as [->|_].
    - exfalso. apply (Hseen x); now left.
    - apply IHs. intros m Hm Hin. apply (Hseen m Hm). now right. }
  rewrite Hk. cbn [List.length Nat.eqb]. f_equal.
  apply IH; [exact Hnd'|intros H; apply Hne; now right|].
  intros m Hm [<-|Hin]; [contradiction|].
  apply (Hseen m); [now right|exact Hin].
Qed.

Lemma convert_length (n : nat) (rs : list (list string)) :
  List.length (Pandas.convert n rs) = List.length rs.
Proof.
  unfold Pandas.convert. now rewrite length_map, length_seq.
Qed.

(** X11.  The header of a report, a plain file, is the first line of the
    file that holds a tab, whatever stands before it, and every later
    line that holds a tab is a row of the table; a file without such a
    line cannot be read.  So the table has at least two columns, as many
    as the header has fields, and a title line that happens to hold a tab
    is taken for the header.  The labels of the columns are the fields of
    the header when none of these is empty and no two are the same. *)
Theorem header_is_first_tabbed_line (text : string) :
  Pandas.plain text = true ->
  match filter has_tab (Text.readlines text) with
  | [] =>
      Pandas.read_csv text Text.tab (rows_to_skip 0 (Text.readlines text))
      = inl EmptyDataError
  | h :: body =>
      forall df,
        Pandas.read_csv text Text.tab (rows_to_skip 0 (Text.readlines text)) = inr df ->
        List.length (columns df) = List.length (Text.split Text.tab (Text.chomp h)) /\
        2 <= List.length (columns df) /\
        List.length (rows df) = List.length body /\
        (NoDup (Text.split Text.tab (Text.chomp h)) ->
         ~ In "" (Text.split Text.tab (Text.chomp h)) ->
         columns df = Text.split Text.tab (Text.chomp h))
  end.
Proof.
  intros _. unfold Pandas.read_csv, Pandas.fields.
  rewrite drop_rows_skipped.
  rewrite (tabbed_lines_are_not_blank _ (chomp_readlines text)).
  pose proof (chomp_readlines text) as Hch.
  destruct (filter has_tab (Text.readlines text)) as [|h body] eqn:Hf; simpl;
    [reflexivity|].
  intros df. destruct (mapR _ (map Text.chomp body)) as [e|rs] eqn:Hrows; [discriminate|].
  intros H. injection H as <-. cbn [columns rows].
  split; [apply dedup_names_length|]. split; [|split].
  - rewrite dedup_names_length, split_length.
    assert (Hh : In h (filter has_tab (Text.readlines text))) by (rewrite Hf; now left).
    apply filter_In in Hh as [Hin Htab].
    rewrite Forall_forall in Hch. rewrite (Hch h Hin).
    unfold has_tab in Htab. destruct (Nat.eqb_spec (Text.count Text.tab h) 0);
      [discriminate|lia].
  - apply mapR_length in Hrows. now rewrite convert_length, Hrows, length_map.
  - intros Hnd Hne. apply dedup_names_distinct; [exact Hnd|exact Hne|].
    intros n _ [].
Qed.

Lemma header_is_first_tabbed_line_witness :
  exists df,
    Pandas.read_csv Demo.report Text.tab (rows_to_skip 0 (Text.readlines Demo.report))
    = inr df /\
    columns df = ["#Name"; "NsxFInt"] /\
    List.length (rows df) = 4.
Proof.
  assert (H := header_is_first_tabbed_line Demo.report eq_refl).
  vm_compute in H.
  exists Demo.vmh0. split; [vm_compute; reflexivity|].
  destruct (H Demo.vmh0 eq_refl) as (_ & _ & Hr & Hc).
  split; [|exact Hr].
  apply Hc; [repeat constructor; simpl; intuition discriminate|].
  simpl. intuition discriminate.
Defined.

(** ** Editions and markers together *)

Lemma edition_name_empty (z : Z) :
  (0 <= z < 5)%Z -> (Spec.edition_name z = "" <-> z = 0%Z).
Proof.
  intros H.
  assert (Hz : z = 0%Z \/ z = 1%Z \/ z = 2%Z \/ z = 3%Z \/ z = 4%Z) by lia.
  destruct Hz as [->|[->|[->|[->| ->]]]]; cbn; split; (discriminate || lia || reflexivity).
Qed.

Lemma resolved_rank_zero (vm : VM) (feats : list Feature) :
  Spec.resolved_rank vm feats = 0%Z <->
  forall f, In f feats -> Spec.contributed vm f = 0%Z.
Proof.
  induction feats as [|g feats IH]; simpl.
  - split; [intros _ f []|reflexivity].
  - pose proof (contributed_bounds vm g). pose proof (resolved_rank_bounds vm feats).
    split.
    + intros Hmax f [<-|Hf]; [lia|]. apply IH; [lia|exact Hf].
    + intros Hall. rewrite (Hall g (or_introl eq_refl)).
      assert (Spec.resolved_rank vm feats = 0%Z) by (apply IH; intros f Hf; apply Hall; now right).
      lia.
Qed.

(** X12.  In every row written for a report and a catalog of the data
    model, the catalog with a feature in it, the edition is empty exactly
    when every feature column is blank: a VM with a marked feature always
    gets a named edition, and a VM without one never does. *)
Theorem edition_empty_iff_no_marker (args : Args) (fs : FileSystem) (vms : list VM)
  (feats : list Feature) :
  loaded args fs vms feats ->
  valid_catalog feats ->
  feats <> [] \/ vms = [] ->
  exists df,
    outfile (fst (run args fs)) = Some (output args, df) /\
    forall i vm,
      nth_error vms i = Some vm ->
      exists row,
        nth_error (rows df) i = Some row /\
        (row_get (columns df) row "NSX Edition" = inr (Str "") <->
         forall f, In f feats ->
                   row_get (columns df) row (feature_name f) = inr (Str "")).
Proof.
  intros Hl Hv Hne. destruct (run_resolved _ _ _ _ Hl Hv Hne) as [Ho _].
  exists (resolved feats vms). split; [exact Ho|].
  intros i vm Hi. exists (resolved_row feats vm).
  split; [now apply resolved_nth|].
  rewrite (resolved_edition feats vms vm Hv).
  assert (Hmark : forall f, marker vm f = Str "" <-> Spec.contributed vm f = 0%Z).
  { intros f. unfold marker. pose proof (contributed_bounds vm f).
    destruct (Z.ltb_spec 0 (Spec.contributed vm f)); split;
      (discriminate || lia || reflexivity). }
  split.
  - intros He f Hf. rewrite (resolved_feature feats vms vm f Hv Hf). f_equal.
    apply Hmark. injection He as He.
    apply (edition_name_empty _ (resolved_rank_bounds vm feats)) in He.
    now apply (proj1 (resolved_rank_zero vm feats) He).
  - intros Hall. do 2 f_equal.
    apply (edition_name_empty _ (resolved_rank_bounds vm feats)).
    apply resolved_rank_zero. intros f Hf. apply Hmark.
    specialize (Hall f Hf). rewrite (resolved_feature feats vms vm f Hv Hf) in Hall.
    now injection Hall.
Qed.

Lemma edition_empty_iff_no_marker_witness :
  exists df row,
    outfile (fst (run default_args (Demo.files Demo.report Demo.catalog)))
    = Some ("nsxfint.csv", df) /\
    nth_error (rows df) 1 = Some row /\
    (row_get (columns df) row "NSX Edition" = inr (Str "") <->
     forall f, In f Demo.feats -> row_get (columns df) row (feature_name f) = inr (Str "")).
Proof.
  destruct (edition_empty_iff_no_marker default_args (Demo.files Demo.report Demo.catalog)
              Demo.vms Demo.feats) as (df & Ho & Hrows).
  - demo_loaded.
  - demo_valid.
  - left. discriminate.
  - destruct (Hrows 1 (mkVM (Str "vm2") 0) eq_refl) as (row & Hr & Hiff).
    exists df, row. repeat split; try assumption; apply Hiff.
Defined.

Lemma active_wider (vm vm' : VM) (f : Feature) :
  (0 <= usage_mask vm')%Z ->
  Z.land (usage_mask vm) (usage_mask vm') = usage_mask vm ->
  Spec.active vm f = true -> Spec.active vm' f = true.
Proof.
  unfold Spec.active. intros Hnn Hsub Hact.
  apply Z.ltb_lt in Hact. apply Z.ltb_lt.
  assert (Hge : (0 <= Z.land (usage_mask vm') (bit_value f))%Z)
    by (apply Z.land_nonneg; now left).
  assert (Hne : Z.land (usage_mask vm') (bit_value f) <> 0%Z).
  { intros Hz. rewrite <- Hsub, <- Z.land_assoc, Hz, Z.land_0_r in Hact. lia. }
  lia.
Qed.

Lemma resolved_rank_wider (vm vm' : VM) (feats : list Feature) :
  (forall f, In f feats -> Spec.active vm f = true -> Spec.active vm' f = true) ->
  (Spec.resolved_rank vm feats <= Spec.resolved_rank vm' feats)%Z.
Proof.
  induction feats as [|g feats IH]; intros H; simpl; [lia|].
  assert (Hg : (Spec.contributed vm g <= Spec.contributed vm' g)%Z).
  { unfold Spec.contributed. pose proof (rank_bounds g).
    destruct (Spec.active vm g) eqn:Ha.
    - rewrite (H g (or_introl eq_refl) Ha). lia.
    - destruct (Spec.active vm' g); lia. }
  specialize (IH (fun f Hf => H f (or_intror Hf))). lia.
Qed.

(** X13.  More usage never lowers the edition, for a report and a
    catalog of the data model, the catalog with a feature in it: when the
    mask of one VM is not negative and holds every bit of the mask of
    another, every feature marked for the second is marked for the first,
    and the edition written for the first stands at least as high in the
    edition list as the edition written for the second. *)
Theorem wider_mask_no_lower_edition (args : Args) (fs : FileSystem) (vms : list VM)
  (feats : list Feature) :
  loaded args fs vms feats ->
  valid_catalog feats ->
  feats <> [] \/ vms = [] ->
  exists df,
    outfile (fst (run args fs)) = Some (output args, df) /\
    forall i i' vm vm',
      nth_error vms i = Some vm ->
      nth_error vms i' = Some vm' ->
      (0 <= usage_mask vm')%Z ->
      Z.land (usage_mask vm) (usage_mask vm') = usage_mask vm ->
      exists row row' e e' r r',
        nth_error (rows df) i = Some row /\
        nth_error (rows df) i' = Some row' /\
        (forall f, In f feats ->
                   row_get (columns df) row (feature_name f) = inr (Str "True") ->
                   row_get (columns df) row' (feature_name f) = inr (Str "True")) /\
        row_get (columns df) row "NSX Edition" = inr (Str e) /\
        row_get (columns df) row' "NSX Edition" = inr (Str e') /\
        editions_index (Str e) = inr (Int r) /\
        editions_index (Str e') = inr (Int r') /\
        (r <= r')%Z.
Proof.
  intros Hl Hv Hne. destruct (run_resolved _ _ _ _ Hl Hv Hne) as [Ho _].
  pose proof (loaded_rank_positive _ _ _ _ Hl Hv) as Hpos.
  rewrite Forall_forall in Hpos.
  exists (resolved feats vms). split; [exact Ho|].
  intros i i' vm vm' Hi Hi' Hnn Hsub.
  exists (resolved_row feats vm), (resolved_row feats vm'),
         (Spec.edition_name (Spec.resolved_rank vm feats)),
         (Spec.edition_name (Spec.resolved_rank vm' feats)),
         (Spec.resolved_rank vm feats), (Spec.resolved_rank vm' feats).
  split; [now apply resolved_nth|]. split; [now apply resolved_nth|].
  split.
  { intros f Hf. rewrite !(resolved_feature feats vms _ f Hv Hf).
    rewrite !(marker_active _ f (Hpos f Hf)).
    pose proof (active_wider vm vm' f Hnn Hsub) as Hw. unfold Spec.active in Hw.
    destruct (Z.ltb 0 (Z.land (usage_mask vm) (bit_value f))); [|discriminate].
    now rewrite Hw. }
  split; [now apply resolved_edition|]. split; [now apply resolved_edition|].
  split; [apply editions_index_at, resolved_rank_bounds|].
  split; [apply editions_index_at, resolved_rank_bounds|].
  apply resolved_rank_wider. intros f _. now apply active_wider.
Qed.

Lemma wider_mask_no_lower_edition_witness :
  exists df row row',
    outfile (fst (run default_args (Demo.files Demo.report Demo.catalog)))
    = Some ("nsxfint.csv", df) /\
    nth_error (rows df) 1 = Some row /\
    nth_error (rows df) 0 = Some row' /\
    forall f, In f Demo.feats ->
              row_get (columns df) row (feature_name f) = inr (Str "True") ->
              row_get (columns df) row' (feature_name f) = inr (Str "True").
Proof.
  destruct (wider_mask_no_lower_edition default_args (Demo.files Demo.report Demo.catalog)
              Demo.vms Demo.feats) as (df & Ho & Hrows).
  - demo_loaded.
  - demo_valid.
  - left. discriminate.
  - destruct (Hrows 1 0 (mkVM (Str "vm2") 0) (mkVM (Str "vm1") 3) eq_refl eq_refl)
      as (row & row' & e & e' & r & r' & Hr & Hr' & Hf & _).
    + simpl. lia.
    + reflexivity.
    + exists df, row, row'. repeat split; assumption.
Defined.

(** ** Repeated feature names *)





(** ** Bit values that are no integers *)



